(** * Admission control in snuba: request settings and object rate limiters

    A shallow embedding of
    - [snuba/request/request_settings.py]: the per-request settings object,
      with its HTTP and subscription variants, and
    - [snuba/query/processors/object_id_rate_limiter.py]: the family of
      rate-limiter query processors that decorate a settings object,
    followed by the properties the specification states about them.

    Python objects that are mutated in place are modelled by explicit state
    passing: a method that mutates [self] returns the new object.  Python
    exceptions are modelled by the [result] type. *)

From stdpp Require Import gmap strings pretty list.

Open Scope Z_scope.
Open Scope string_scope.

(** ** Python results: a value or a raised exception *)

Inductive exn := ValueError | KeyError.

Inductive result (A : Type) : Type :=
| Ok (a : A)
| Raise (e : exn).
Arguments Ok {A} a.
Arguments Raise {A} e.

Global Instance result_ret : MRet result := λ A, Ok.
Global Instance result_bind : MBind result := λ A B f m,
  match m with
  | Ok a => f a
  | Raise e => Raise e
  end.

(** ** snuba.state.rate_limit and snuba.state.quota *)

Module rate_limit.

(** Modelled from the spec: the class [RateLimitParameters] of
    [snuba.state.rate_limit] is not part of the sources at hand.  Section 3
    of the specification gives its four fields; an unset limit ([None])
    means unlimited.  Limits are numbers, taken here as integers. *)
Record RateLimitParameters := mkRateLimitParameters {
  rate_limit_name : string;
  bucket : string;
  per_second_limit : option Z;
  concurrent_limit : option Z
}.

End rate_limit.

Abbreviation RateLimitParameters := rate_limit.RateLimitParameters.

Global Instance RateLimitParameters_eq_dec : EqDecision RateLimitParameters.
Proof. solve_decision. Defined.

(** Modelled from the spec: the class [ResourceQuota] of [snuba.state.quota]
    is not part of the sources at hand.  Section 3 describes it as an
    additional budget such as a maximum number of threads. *)
Record ResourceQuota := mkResourceQuota {
  max_threads : Z
}.

(** ** snuba/request/request_settings.py *)

(** The attributes of an [HTTPRequestSettings] instance.  [referrer] is the
    public attribute set by [RequestSettings.__init__]; the others are the
    private attributes of the class, under the names Python gives them. *)
Record HTTPRequestSettings := mkHTTPRequestSettings {
  http_referrer : string;
  _HTTPRequestSettings__turbo : bool;
  _HTTPRequestSettings__consistent : bool;
  _HTTPRequestSettings__debug : bool;
  _HTTPRequestSettings__parent_api : string;
  _HTTPRequestSettings__dry_run : bool;
  _HTTPRequestSettings__legacy : bool;
  _HTTPRequestSettings__team : string;
  _HTTPRequestSettings__feature : string;
  _HTTPRequestSettings__app_id : string;
  _HTTPRequestSettings__rate_limit_params : list RateLimitParameters;
  _HTTPRequestSettings__resource_quota : option ResourceQuota
}.

(** The attributes of a [SubscriptionRequestSettings] instance: it has no
    rate-limit list and no quota slot at all. *)
Record SubscriptionRequestSettings := mkSubscriptionRequestSettings {
  subscription_referrer : string;
  _SubscriptionRequestSettings__consistent : bool;
  _SubscriptionRequestSettings__parent_api : string;
  _SubscriptionRequestSettings__team : string;
  _SubscriptionRequestSettings__feature : string;
  _SubscriptionRequestSettings__app_id : string
}.

(** [HTTPRequestSettings.__init__]: the list of rate limits starts empty and
    the quota unset, whatever the arguments. *)
Definition HTTPRequestSettings__init__
    (referrer : string) (turbo consistent debug : bool) (parent_api : string)
    (dry_run legacy : bool) (team feature app_id : string)
  : HTTPRequestSettings :=
  {| http_referrer := referrer;
     _HTTPRequestSettings__turbo := turbo;
     _HTTPRequestSettings__consistent := consistent;
     _HTTPRequestSettings__debug := debug;
     _HTTPRequestSettings__parent_api := parent_api;
     _HTTPRequestSettings__dry_run := dry_run;
     _HTTPRequestSettings__legacy := legacy;
     _HTTPRequestSettings__team := team;
     _HTTPRequestSettings__feature := feature;
     _HTTPRequestSettings__app_id := app_id;
     _HTTPRequestSettings__rate_limit_params := [];
     _HTTPRequestSettings__resource_quota := None |}.

(** [HTTPRequestSettings(referrer=r)], every other argument at its default. *)
Definition HTTPRequestSettings_of_referrer (r : string) : HTTPRequestSettings :=
  HTTPRequestSettings__init__ r false false false "<unknown>" false false
    "<unknown>" "<unknown>" "default".

(** [SubscriptionRequestSettings(referrer=r)], every other argument at its
    default. *)
Definition SubscriptionRequestSettings_of_referrer (r : string)
  : SubscriptionRequestSettings :=
  {| subscription_referrer := r;
     _SubscriptionRequestSettings__consistent := true;
     _SubscriptionRequestSettings__parent_api := "subscription";
     _SubscriptionRequestSettings__team := "workflow";
     _SubscriptionRequestSettings__feature := "subscription";
     _SubscriptionRequestSettings__app_id := "default" |}.

(** The abstract class [RequestSettings] has exactly two concrete
    subclasses. *)
Inductive RequestSettings :=
| OfHTTP (h : HTTPRequestSettings)
| OfSubscription (s : SubscriptionRequestSettings).

Definition referrer (self : RequestSettings) : string :=
  match self with
  | OfHTTP h => http_referrer h
  | OfSubscription s => subscription_referrer s
  end.

Definition get_turbo (self : RequestSettings) : bool :=
  match self with
  | OfHTTP h => _HTTPRequestSettings__turbo h
  | OfSubscription _ => false
  end.

Definition get_consistent (self : RequestSettings) : bool :=
  match self with
  | OfHTTP h => _HTTPRequestSettings__consistent h
  | OfSubscription s => _SubscriptionRequestSettings__consistent s
  end.

Definition get_debug (self : RequestSettings) : bool :=
  match self with
  | OfHTTP h => _HTTPRequestSettings__debug h
  | OfSubscription _ => false
  end.

Definition get_rate_limit_params (self : RequestSettings)
  : list RateLimitParameters :=
  match self with
  | OfHTTP h => _HTTPRequestSettings__rate_limit_params h
  | OfSubscription _ => []
  end.

Definition add_rate_limit (self : RequestSettings)
    (rate_limit_param : RateLimitParameters) : RequestSettings :=
  match self with
  | OfHTTP h =>
      OfHTTP
        {| http_referrer := http_referrer h;
           _HTTPRequestSettings__turbo := _HTTPRequestSettings__turbo h;
           _HTTPRequestSettings__consistent := _HTTPRequestSettings__consistent h;
           _HTTPRequestSettings__debug := _HTTPRequestSettings__debug h;
           _HTTPRequestSettings__parent_api := _HTTPRequestSettings__parent_api h;
           _HTTPRequestSettings__dry_run := _HTTPRequestSettings__dry_run h;
           _HTTPRequestSettings__legacy := _HTTPRequestSettings__legacy h;
           _HTTPRequestSettings__team := _HTTPRequestSettings__team h;
           _HTTPRequestSettings__feature := _HTTPRequestSettings__feature h;
           _HTTPRequestSettings__app_id := _HTTPRequestSettings__app_id h;
           _HTTPRequestSettings__rate_limit_params :=
             _HTTPRequestSettings__rate_limit_params h ++ [rate_limit_param];
           _HTTPRequestSettings__resource_quota :=
             _HTTPRequestSettings__resource_quota h |}
  | OfSubscription s => OfSubscription s
  end.

Definition get_resource_quota (self : RequestSettings) : option ResourceQuota :=
  match self with
  | OfHTTP h => _HTTPRequestSettings__resource_quota h
  | OfSubscription _ => None
  end.

Definition set_resource_quota (self : RequestSettings) (quota : ResourceQuota)
  : RequestSettings :=
  match self with
  | OfHTTP h =>
      OfHTTP
        {| http_referrer := http_referrer h;
           _HTTPRequestSettings__turbo := _HTTPRequestSettings__turbo h;
           _HTTPRequestSettings__consistent := _HTTPRequestSettings__consistent h;
           _HTTPRequestSettings__debug := _HTTPRequestSettings__debug h;
           _HTTPRequestSettings__parent_api := _HTTPRequestSettings__parent_api h;
           _HTTPRequestSettings__dry_run := _HTTPRequestSettings__dry_run h;
           _HTTPRequestSettings__legacy := _HTTPRequestSettings__legacy h;
           _HTTPRequestSettings__team := _HTTPRequestSettings__team h;
           _HTTPRequestSettings__feature := _HTTPRequestSettings__feature h;
           _HTTPRequestSettings__app_id := _HTTPRequestSettings__app_id h;
           _HTTPRequestSettings__rate_limit_params :=
             _HTTPRequestSettings__rate_limit_params h;
           _HTTPRequestSettings__resource_quota := Some quota |}
  | OfSubscription s => OfSubscription s
  end.

(** A sequence of [add_rate_limit] calls, and of [set_resource_quota] calls,
    applied in order to one settings object. *)
Definition add_rate_limits (self : RequestSettings)
    (calls : list RateLimitParameters) : RequestSettings :=
  foldl add_rate_limit self calls.

Definition set_resource_quotas (self : RequestSettings)
    (calls : list ResourceQuota) : RequestSettings :=
  foldl set_resource_quota self calls.

(** ** snuba.state: the enforcement store *)

(** Modelled from the spec: [get_configs] of [snuba.state] is not part of the
    sources at hand.  Section 6 of the specification gives its contract: for
    each [(name, default)] pair, in order, the stored override if there is
    one, else the supplied default.  The store is a finite map from
    configuration keys to numbers; [get_config] is the lookup of one key. *)
Definition get_config (store : gmap string Z) (key : string)
    (default : option Z) : option Z :=
  match store !! key with
  | Some v => Some v
  | None => default
  end.

Definition get_configs (store : gmap string Z)
    (key_defaults : list (string * option Z)) : list (option Z) :=
  (λ kd, get_config store kd.1 kd.2) <$> key_defaults.

(** Python's [a, b = xs]: [ValueError] unless [xs] has exactly two items. *)
Definition unpack2 {A : Type} (xs : list A) : result (A * A) :=
  match xs with
  | [a; b] => Ok (a, b)
  | _ => Raise ValueError
  end.

(** Python's [set.pop()] on a set of integers: it raises [KeyError] on the
    empty set and otherwise removes and returns an element of the set, which
    one being left to the implementation.  Any choice function with these two
    properties is a model of it. *)
Record SetPop := mkSetPop {
  set_pop : gset Z → option Z;
  set_pop_elem : ∀ s x, set_pop s = Some x → x ∈ s;
  set_pop_nonempty : ∀ s, s ≠ ∅ → is_Some (set_pop s)
}.

(** One such choice: the first element in the order [elements] lists them. *)
Program Definition SetPop_first : SetPop :=
  {| set_pop := λ s, head (elements s) |}.
Next Obligation.
  intros s x Hx. apply elem_of_elements. cbv beta in Hx.
  destruct (elements s) as [|y l]; simplify_eq/=. left.
Qed.
Next Obligation.
  intros s Hs. cbv beta. destruct (elements s) as [|y l] eqn:E.
  - apply elements_empty_inv in E. apply leibniz_equiv in E. contradiction.
  - simpl. eauto.
Qed.

(** ** snuba/query/processors/object_id_rate_limiter.py *)

Definition DEFAULT_LIMIT : Z := 1000.

(** The five classes of the module.  The organization and project processors
    override nothing; the other two subclasses override [get_object_id], and
    the project-referrer one the two configuration names as well. *)
Inductive ProcessorClass :=
| ObjectIDRateLimiterProcessorClass
| OrganizationRateLimiterProcessorClass
| ProjectReferrerRateLimiterClass
| ReferrerRateLimiterProcessorClass
| ProjectRateLimiterProcessorClass.

(** The attributes [ObjectIDRateLimiterProcessor.__init__] sets on [self],
    with the class of the instance. *)
Record Processor := mkProcessor {
  class_of : ProcessorClass;
  object_column : string;
  rate_limit_name : string;
  per_second_name : string;
  concurrent_name : string;
  request_settings_field : option string;
  default_limit : option Z
}.

(** What the module imports from the rest of the code base and from the
    Python runtime, none of it part of the sources at hand:
    - the query AST and its accessor [get_object_ids_in_query_ast]
      ([snuba.clickhouse.query_dsl.accessors]), which returns [None] or the
      set of integer ids the query's conditions on a column name;
    - the implementation's choice in [set.pop()];
    - the four category names, constants of [snuba.state.rate_limit];
    - [getattr_other], Python's attribute lookup on a settings object for a
      name other than [referrer]: the value of
      [getattr(request_settings, name, None)] in the text an f-string gives
      it, and [None] when there is no such attribute or its value is [None].
      A settings object has many attributes besides [referrer]: the private
      ones under their mangled names, among them the list of rate limits
      and the quota, its methods, and those every object has; what text they
      give is Python's affair, and may depend on the whole object. *)
Class Externals := mkExternals {
  Query : Type;
  get_object_ids_in_query_ast : Query → string → option (gset Z);
  pop : SetPop;
  ORGANIZATION_RATE_LIMIT_NAME : string;
  PROJECT_RATE_LIMIT_NAME : string;
  PROJECT_REFERRER_RATE_LIMIT_NAME : string;
  REFERRER_RATE_LIMIT_NAME : string;
  getattr_other : RequestSettings → string → option string
}.

Section Processors.

Context `{Externals}.

(** The contents of the shared configuration store [get_configs] reads. *)
Variable store : gmap string Z.

(** [getattr(request_settings, name, None)], as an f-string shows it:
    [referrer] is the public attribute [RequestSettings.__init__] sets, a
    string; any other name is looked up by Python. *)
Definition getattr_or_None (request_settings : RequestSettings) (name : string)
  : option string :=
  if decide (name = "referrer") then Some (referrer request_settings)
  else getattr_other request_settings name.

Definition ObjectIDRateLimiterProcessor
    (object_column rate_limit_name per_second_name concurrent_name : string)
    (request_settings_field : option string) (default_limit : option Z)
  : Processor :=
  mkProcessor ObjectIDRateLimiterProcessorClass object_column rate_limit_name
    per_second_name concurrent_name request_settings_field default_limit.

Definition OrganizationRateLimiterProcessor (org_column : string) : Processor :=
  mkProcessor OrganizationRateLimiterProcessorClass
    org_column
    ORGANIZATION_RATE_LIMIT_NAME
    "org_per_second_limit"
    "org_concurrent_limit"
    None (Some DEFAULT_LIMIT).

Definition ProjectReferrerRateLimiter (project_column : string) : Processor :=
  mkProcessor ProjectReferrerRateLimiterClass
    project_column
    PROJECT_REFERRER_RATE_LIMIT_NAME
    "project_referrer_per_second_limit"
    "project_referrer_concurrent_limit"
    (Some "referrer") None.

Definition ReferrerRateLimiterProcessor : Processor :=
  mkProcessor ReferrerRateLimiterProcessorClass
    "nocolumn"
    REFERRER_RATE_LIMIT_NAME
    "referrer_per_second_limit"
    "referrer_concurrent_limit"
    (Some "referrer") None.

Definition ProjectRateLimiterProcessor (project_column : string) : Processor :=
  mkProcessor ProjectRateLimiterProcessorClass
    project_column
    PROJECT_RATE_LIMIT_NAME
    "project_per_second_limit"
    "project_concurrent_limit"
    None (Some DEFAULT_LIMIT).

Definition _is_already_applied (self : Processor)
    (request_settings : RequestSettings) : bool :=
  let existing := get_rate_limit_params request_settings in
  (fix loop (existing : list RateLimitParameters) : bool :=
     match existing with
     | [] => false
     | ex :: rest =>
         if decide (rate_limit.rate_limit_name ex = rate_limit_name self)
         then true else loop rest
     end) existing.

(** [obj_ids = get_object_ids_in_query_ast(...)], [if not obj_ids: return
    None], then [str(obj_ids.pop())]: the part the base class and the
    project-referrer override have in common.  [not obj_ids] holds of [None]
    and of the empty set. *)
Definition pop_object_id (self : Processor) (query : Query)
  : result (option string) :=
  match get_object_ids_in_query_ast query (object_column self) with
  | None => Ok None
  | Some obj_ids =>
      if decide (obj_ids = ∅) then Ok None
      else match set_pop pop obj_ids with
           | Some x => Ok (Some (pretty x))
           | None => Raise KeyError
           end
  end.

Definition get_object_id (self : Processor) (query : Query)
    (request_settings : RequestSettings) : result (option string) :=
  match class_of self with
  | ReferrerRateLimiterProcessorClass => Ok (Some (referrer request_settings))
  | ProjectReferrerRateLimiterClass => pop_object_id self query
  | _ =>
      obj_id ← pop_object_id self query;
      match obj_id with
      | None => Ok None
      | Some obj_id =>
          match request_settings_field self with
          | Some field =>
              match getattr_or_None request_settings field with
              | Some request_settings_field_val =>
                  Ok (Some (obj_id +:+ "_" +:+ request_settings_field_val))
              | None => Ok (Some obj_id)
              end
          | None => Ok (Some obj_id)
          end
      end
  end.

Definition get_per_second_name (self : Processor) (query : Query)
    (request_settings : RequestSettings) : string :=
  match class_of self with
  | ProjectReferrerRateLimiterClass =>
      per_second_name self +:+ "_" +:+ referrer request_settings
  | _ => per_second_name self
  end.

Definition get_concurrent_name (self : Processor) (query : Query)
    (request_settings : RequestSettings) : string :=
  match class_of self with
  | ProjectReferrerRateLimiterClass =>
      concurrent_name self +:+ "_" +:+ referrer request_settings
  | _ => concurrent_name self
  end.

Definition process_query (self : Processor) (query : Query)
    (request_settings : RequestSettings) : result RequestSettings :=
  if _is_already_applied self request_settings then Ok request_settings
  else
    let per_second_name := get_per_second_name self query request_settings in
    let concurrent_name := get_concurrent_name self query request_settings in
    '(object_rate_limit, object_concurrent_limit) ←
      unpack2 (get_configs store
                 [(per_second_name, default_limit self);
                  (concurrent_name, default_limit self)]);
    obj_id ← get_object_id self query request_settings;
    match obj_id with
    | None => Ok request_settings
    | Some obj_id =>
        '(per_second, concurr) ←
          unpack2 (get_configs store
                     [(per_second_name +:+ "_" +:+ obj_id, object_rate_limit);
                      (concurrent_name +:+ "_" +:+ obj_id,
                       object_concurrent_limit)]);
        if decide (default_limit self = None ∧ per_second = None
                   ∧ concurr = None)
        then Ok request_settings
        else
          let rate_limit :=
            rate_limit.mkRateLimitParameters
              (rate_limit_name self) obj_id per_second concurr in
          Ok (add_rate_limit request_settings rate_limit)
    end.

(** The two tiers of limit resolution in the specification's words, to be
    compared with what [process_query] computes: the global pair of the
    category, with the processor's static default as fallback, and the pair
    of one object, with the global pair as fallback. *)
Definition global_limits (self : Processor) (query : Query)
    (request_settings : RequestSettings) : option Z * option Z :=
  (get_config store (get_per_second_name self query request_settings)
     (default_limit self),
   get_config store (get_concurrent_name self query request_settings)
     (default_limit self)).

Definition object_limits (self : Processor) (query : Query)
    (request_settings : RequestSettings) (obj_id : string)
  : option Z * option Z :=
  let global := global_limits self query request_settings in
  (get_config store
     (get_per_second_name self query request_settings +:+ "_" +:+ obj_id)
     global.1,
   get_config store
     (get_concurrent_name self query request_settings +:+ "_" +:+ obj_id)
     global.2).

(** The skip condition of the specification, for the object [obj_id]. *)
Definition skipped (self : Processor) (query : Query)
    (request_settings : RequestSettings) (obj_id : string) : Prop :=
  default_limit self = None
  ∧ (object_limits self query request_settings obj_id).1 = None
  ∧ (object_limits self query request_settings obj_id).2 = None.

Global Instance skipped_dec self query request_settings obj_id :
  Decision (skipped self query request_settings obj_id).
Proof. unfold skipped. apply _. Defined.

(** The entry the specification's last step constructs for [obj_id]. *)
Definition limit_for (self : Processor) (query : Query)
    (request_settings : RequestSettings) (obj_id : string)
  : RateLimitParameters :=
  rate_limit.mkRateLimitParameters (rate_limit_name self) obj_id
    (object_limits self query request_settings obj_id).1
    (object_limits self query request_settings obj_id).2.

(** Several processors run one after the other over the same settings, each
    with the query it is given; an exception stops the run. *)
Fixpoint run_processors (runs : list (Processor * Query))
    (request_settings : RequestSettings) : result RequestSettings :=
  match runs with
  | [] => Ok request_settings
  | (self, query) :: rest =>
      request_settings ← process_query self query request_settings;
      run_processors rest request_settings
  end.

End Processors.

(** ** A concrete environment *)

(** [str(b)] of a Python boolean. *)
Definition str_of_bool (b : bool) : string :=
  if b then "True" else "False".

(** The private attributes of a settings object that hold a string or a
    boolean, under their mangled names.  The attributes this leaves out (the
    list of rate limits, the quota, the methods and what every object has)
    are reported as absent here: the concrete inputs below configure no
    processor with a field other than [referrer], so that the lookup of
    another name is never reached on them. *)
Definition example_getattr_other (request_settings : RequestSettings)
    (name : string) : option string :=
  match request_settings with
  | OfHTTP h =>
      if decide (name = "_HTTPRequestSettings__turbo")
      then Some (str_of_bool (_HTTPRequestSettings__turbo h))
      else if decide (name = "_HTTPRequestSettings__consistent")
      then Some (str_of_bool (_HTTPRequestSettings__consistent h))
      else if decide (name = "_HTTPRequestSettings__debug")
      then Some (str_of_bool (_HTTPRequestSettings__debug h))
      else if decide (name = "_HTTPRequestSettings__parent_api")
      then Some (_HTTPRequestSettings__parent_api h)
      else if decide (name = "_HTTPRequestSettings__dry_run")
      then Some (str_of_bool (_HTTPRequestSettings__dry_run h))
      else if decide (name = "_HTTPRequestSettings__legacy")
      then Some (str_of_bool (_HTTPRequestSettings__legacy h))
      else if decide (name = "_HTTPRequestSettings__team")
      then Some (_HTTPRequestSettings__team h)
      else if decide (name = "_HTTPRequestSettings__feature")
      then Some (_HTTPRequestSettings__feature h)
      else if decide (name = "_HTTPRequestSettings__app_id")
      then Some (_HTTPRequestSettings__app_id h)
      else None
  | OfSubscription s =>
      if decide (name = "_SubscriptionRequestSettings__consistent")
      then Some (str_of_bool (_SubscriptionRequestSettings__consistent s))
      else if decide (name = "_SubscriptionRequestSettings__parent_api")
      then Some (_SubscriptionRequestSettings__parent_api s)
      else if decide (name = "_SubscriptionRequestSettings__team")
      then Some (_SubscriptionRequestSettings__team s)
      else if decide (name = "_SubscriptionRequestSettings__feature")
      then Some (_SubscriptionRequestSettings__feature s)
      else if decide (name = "_SubscriptionRequestSettings__app_id")
      then Some (_SubscriptionRequestSettings__app_id s)
      else None
  end.

(** A query reduced to what the accessor sees of it: for each column, the
    set of ids its conditions name.  The category names are those of
    [snuba.state.rate_limit]. *)
Definition example_externals : Externals :=
  {| Query := gmap string (gset Z);
     get_object_ids_in_query_ast := λ query column, query !! column;
     pop := SetPop_first;
     ORGANIZATION_RATE_LIMIT_NAME := "organization";
     PROJECT_RATE_LIMIT_NAME := "project";
     PROJECT_REFERRER_RATE_LIMIT_NAME := "project_referrer";
     REFERRER_RATE_LIMIT_NAME := "referrer";
     getattr_other := example_getattr_other |}.

(** A query with the single condition [project_id = 1]. *)
Definition query_project_1 : @Query example_externals :=
  {[ "project_id" := {[ 1 ]} ]}.

(** A query with the single condition [org_id = 42]. *)
Definition query_org_42 : @Query example_externals :=
  {[ "org_id" := {[ 42 ]} ]}.

(** A query with no condition at all. *)
Definition query_no_conditions : @Query example_externals := ∅.

(** A store with organization limits: globally (10, 5), and (2, 1) for the
    organization 42. *)
Definition store_org_42 : gmap string Z :=
  {[ "org_per_second_limit" := 10;
     "org_concurrent_limit" := 5;
     "org_per_second_limit_42" := 2;
     "org_concurrent_limit_42" := 1 ]}.

(** A store with a per-second limit for project 1, one for the referrer
    [api] and one for the referrer [tagstore]. *)
Definition store_project_referrer : gmap string Z :=
  {[ "project_referrer_per_second_limit_api_1" := 7;
     "project_referrer_per_second_limit_tagstore_1" := 9 ]}.

(** A store with a concurrent limit for the referrer [api]. *)
Definition store_referrer_api : gmap string Z :=
  {[ "referrer_concurrent_limit_api" := 3 ]}.

(** ** request_settings.py: the remaining getters *)

Definition get_parent_api (self : RequestSettings) : string :=
  match self with
  | OfHTTP h => _HTTPRequestSettings__parent_api h
  | OfSubscription s => _SubscriptionRequestSettings__parent_api s
  end.

Definition get_dry_run (self : RequestSettings) : bool :=
  match self with
  | OfHTTP h => _HTTPRequestSettings__dry_run h
  | OfSubscription _ => false
  end.

Definition get_legacy (self : RequestSettings) : bool :=
  match self with
  | OfHTTP h => _HTTPRequestSettings__legacy h
  | OfSubscription _ => false
  end.

Definition get_team (self : RequestSettings) : string :=
  match self with
  | OfHTTP h => _HTTPRequestSettings__team h
  | OfSubscription s => _SubscriptionRequestSettings__team s
  end.

Definition get_feature (self : RequestSettings) : string :=
  match self with
  | OfHTTP h => _HTTPRequestSettings__feature h
  | OfSubscription s => _SubscriptionRequestSettings__feature s
  end.

Definition get_app_id (self : RequestSettings) : string :=
  match self with
  | OfHTTP h => _HTTPRequestSettings__app_id h
  | OfSubscription s => _SubscriptionRequestSettings__app_id s
  end.

(** The two mutating methods of a settings object, as calls with their
    argument, and a sequence of such calls applied in order. *)
Inductive SettingsCall :=
| CallAddRateLimit (rate_limit_param : RateLimitParameters)
| CallSetResourceQuota (quota : ResourceQuota).

Definition call_settings (self : RequestSettings) (c : SettingsCall)
  : RequestSettings :=
  match c with
  | CallAddRateLimit rate_limit_param => add_rate_limit self rate_limit_param
  | CallSetResourceQuota quota => set_resource_quota self quota
  end.

Definition call_settings_seq (self : RequestSettings)
    (calls : list SettingsCall) : RequestSettings :=
  foldl call_settings self calls.

Definition added_rate_limit (c : SettingsCall) : option RateLimitParameters :=
  match c with
  | CallAddRateLimit rate_limit_param => Some rate_limit_param
  | CallSetResourceQuota _ => None
  end.

Definition set_quota (c : SettingsCall) : option ResourceQuota :=
  match c with
  | CallAddRateLimit _ => None
  | CallSetResourceQuota quota => Some quota
  end.

(** What every getter but the two for rate limits and quota returns. *)
Definition flags (self : RequestSettings)
  : string * bool * bool * bool * string * bool * bool * string * string
    * string :=
  (referrer self, get_turbo self, get_consistent self, get_debug self,
   get_parent_api self, get_dry_run self, get_legacy self, get_team self,
   get_feature self, get_app_id self).

(** ** object_id_rate_limiter.py: what one run attaches *)

Section Attachment.

Context `{Externals}.
Variable store : gmap string Z.

(** The entry one [process_query] call appends, if any: none when the guard
    holds, when there is no object id or under the skip condition. *)
Definition attachment (self : Processor) (query : Query)
    (request_settings : RequestSettings) : option RateLimitParameters :=
  if _is_already_applied self request_settings then None
  else match get_object_id self query request_settings with
       | Ok (Some obj_id) =>
           if decide (skipped store self query request_settings obj_id)
           then None
           else Some (limit_for store self query request_settings obj_id)
       | _ => None
       end.

End Attachment.

(** The processors whose object id reads nothing of the settings but the
    referrer: those of the two classes that override [get_object_id], and
    those whose [request_settings_field] is unset or [referrer].  Every
    processor the subclasses of the module construct is one. *)
Definition reads_referrer_only (self : Processor) : Prop :=
  class_of self = ProjectReferrerRateLimiterClass
  ∨ class_of self = ReferrerRateLimiterProcessorClass
  ∨ request_settings_field self = None
  ∨ request_settings_field self = Some "referrer".

(** ** snuba/datasets/table_storage.py *)

(** A member of the enumeration [Topic] of [snuba.utils.streams.topics]; the
    module reads nothing of it but its [value]. *)
Record Topic := mkTopic {
  Topic_value : string
}.

Record KafkaTopicSpec := mkKafkaTopicSpec {
  _KafkaTopicSpec__topic : Topic
}.

Section TopicSettings.

(** The two dictionaries of [snuba.settings] the module reads. *)
Variable KAFKA_TOPIC_MAP : gmap string string.
Variable TOPIC_PARTITION_COUNTS : gmap string Z.

(** [settings.KAFKA_TOPIC_MAP.get(topic.value, topic.value)] *)
Definition get_topic_name (topic : Topic) : string :=
  default (Topic_value topic) (KAFKA_TOPIC_MAP !! Topic_value topic).

Definition KafkaTopicSpec_topic (self : KafkaTopicSpec) : Topic :=
  _KafkaTopicSpec__topic self.

Definition KafkaTopicSpec_topic_name (self : KafkaTopicSpec) : string :=
  get_topic_name (_KafkaTopicSpec__topic self).

(** [settings.TOPIC_PARTITION_COUNTS.get(self.topic_name, 1)] *)
Definition KafkaTopicSpec_partitions_number (self : KafkaTopicSpec) : Z :=
  default 1 (TOPIC_PARTITION_COUNTS !! KafkaTopicSpec_topic_name self).

Definition KafkaTopicSpec_replication_factor (self : KafkaTopicSpec) : Z := 1.

End TopicSettings.

Section StreamLoader.

(** The message processor and the pre-filter are objects of other modules,
    stored and handed back as they are. *)
Variable MessageProcessor : Type.
Variable StreamMessageFilter : Type.

Record KafkaStreamLoader := mkKafkaStreamLoader {
  _KafkaStreamLoader__processor : MessageProcessor;
  _KafkaStreamLoader__default_topic_spec : KafkaTopicSpec;
  _KafkaStreamLoader__replacement_topic_spec : option KafkaTopicSpec;
  _KafkaStreamLoader__commit_log_topic_spec : option KafkaTopicSpec;
  _KafkaStreamLoader__subscription_result_topic_spec : option KafkaTopicSpec;
  _KafkaStreamLoader__pre_filter : option StreamMessageFilter
}.

(** [KafkaStreamLoader.__init__], its parameters in the order of the
    signature. *)
Definition KafkaStreamLoader__init__
    (processor : MessageProcessor) (default_topic_spec : KafkaTopicSpec)
    (pre_filter : option StreamMessageFilter)
    (replacement_topic_spec commit_log_topic_spec
       subscription_result_topic_spec : option KafkaTopicSpec)
  : KafkaStreamLoader :=
  {| _KafkaStreamLoader__processor := processor;
     _KafkaStreamLoader__default_topic_spec := default_topic_spec;
     _KafkaStreamLoader__replacement_topic_spec := replacement_topic_spec;
     _KafkaStreamLoader__commit_log_topic_spec := commit_log_topic_spec;
     _KafkaStreamLoader__subscription_result_topic_spec :=
       subscription_result_topic_spec;
     _KafkaStreamLoader__pre_filter := pre_filter |}.

Definition get_processor (self : KafkaStreamLoader) : MessageProcessor :=
  _KafkaStreamLoader__processor self.

Definition get_pre_filter (self : KafkaStreamLoader)
  : option StreamMessageFilter :=
  _KafkaStreamLoader__pre_filter self.

Definition get_default_topic_spec (self : KafkaStreamLoader)
  : KafkaTopicSpec :=
  _KafkaStreamLoader__default_topic_spec self.

Definition get_replacement_topic_spec (self : KafkaStreamLoader)
  : option KafkaTopicSpec :=
  _KafkaStreamLoader__replacement_topic_spec self.

Definition get_commit_log_topic_spec (self : KafkaStreamLoader)
  : option KafkaTopicSpec :=
  _KafkaStreamLoader__commit_log_topic_spec self.

Definition get_subscription_result_topic_spec (self : KafkaStreamLoader)
  : option KafkaTopicSpec :=
  _KafkaStreamLoader__subscription_result_topic_spec self.

Definition build_kafka_stream_loader_from_settings
    (processor : MessageProcessor) (default_topic : Topic)
    (pre_filter : option StreamMessageFilter)
    (replacement_topic commit_log_topic subscription_result_topic
       : option Topic)
  : KafkaStreamLoader :=
  let default_topic_spec := mkKafkaTopicSpec default_topic in
  let replacement_topic_spec :=
    match replacement_topic with
    | Some replacement_topic => Some (mkKafkaTopicSpec replacement_topic)
    | None => None
    end in
  let commit_log_topic_spec :=
    match commit_log_topic with
    | Some commit_log_topic => Some (mkKafkaTopicSpec commit_log_topic)
    | None => None
    end in
  let subscription_result_topic_spec :=
    match subscription_result_topic with
    | Some subscription_result_topic =>
        Some (mkKafkaTopicSpec subscription_result_topic)
    | None => None
    end in
  KafkaStreamLoader__init__ processor default_topic_spec pre_filter
    replacement_topic_spec commit_log_topic_spec
    subscription_result_topic_spec.

End StreamLoader.

Arguments get_processor {_ _} _.
Arguments get_pre_filter {_ _} _.
Arguments get_default_topic_spec {_ _} _.
Arguments get_replacement_topic_spec {_ _} _.
Arguments get_commit_log_topic_spec {_ _} _.
Arguments get_subscription_result_topic_spec {_ _} _.
Arguments build_kafka_stream_loader_from_settings {_ _} _ _ _ _ _ _.

Section TableWriter.

(** The cluster, the schema, the stream loader and the replacer are objects
    of other modules; writer options map option names to values of any
    kind. *)
Variable ClickhouseCluster : Type.
Variable WritableTableSchema : Type.
Variable StreamLoader : Type.
Variable ReplacerProcessor : Type.
Variable OptionValue : Type.

Record TableWriter := mkTableWriter {
  _TableWriter__cluster : ClickhouseCluster;
  _TableWriter__table_schema : WritableTableSchema;
  _TableWriter__stream_loader : StreamLoader;
  _TableWriter__replacer_processor : option ReplacerProcessor;
  _TableWriter__writer_options : option (gmap string OptionValue)
}.

Definition get_schema (self : TableWriter) : WritableTableSchema :=
  _TableWriter__table_schema self.

Definition get_stream_loader (self : TableWriter) : StreamLoader :=
  _TableWriter__stream_loader self.

Definition get_replacer_processor (self : TableWriter)
  : option ReplacerProcessor :=
  _TableWriter__replacer_processor self.

(** [TableWriter.__update_writer_options].  [{**options, **writer_options}]
    is the union in which the writer's own options win; a dictionary is true
    when it is not empty. *)
Definition _TableWriter__update_writer_options (self : TableWriter)
    (options : option (gmap string OptionValue)) : gmap string OptionValue :=
  let options := match options with
                 | None => ∅
                 | Some options => options
                 end in
  match _TableWriter__writer_options self with
  | Some writer_options =>
      if decide (size writer_options ≠ 0%nat)
      then writer_options ∪ options
      else options
  | None => options
  end.

End TableWriter.

Arguments _TableWriter__writer_options {_ _ _ _ _} _.
Arguments _TableWriter__update_writer_options {_ _ _ _ _} _ _.

(** ** snuba/query/processors/join_optimizers.py *)

Section JoinOptimizer.

(** A table of the schema and the rest of a query (selected columns,
    conditions and so on) are objects of other modules. *)
Variable TableSource : Type.
Variable QueryBody : Type.

(** The data source of a query, as far as the optimizer looks at it: a
    [JoinClause], of which [get_tables()] maps each table alias to its
    table, or a source that is no join. *)
Inductive DataSource :=
| JoinClause (tables : gmap string TableSource)
| SingleTable (table : TableSource).

(** A [Query] of [snuba.query.query]: its data source, read and replaced by
    [get_data_source] and [set_data_source], and the rest of it. *)
Record query_Query := mkQuery {
  query_data_source : DataSource;
  query_body : QueryBody
}.

Definition get_data_source (query : query_Query) : DataSource :=
  query_data_source query.

Definition set_data_source (query : query_Query) (table : TableSource)
  : query_Query :=
  {| query_data_source := SingleTable table;
     query_body := query_body query |}.

(** [all_referenced_columns] of [snuba.query.columns], the columns in the
    order the loop visits them, and [QUALIFIED_COLUMN_REGEX.match], which
    yields [match[1]], the table alias, when the column name is qualified. *)
Variable all_referenced_columns : query_Query → list string.
Variable QUALIFIED_COLUMN_REGEX_match : string → option string.

(** The [for] loop of [process_query], which collects the aliases. *)
Definition referenced_aliases_of (referenced_columns : list string)
  : gset string :=
  foldl
    (λ referenced_aliases qualified_column,
       match QUALIFIED_COLUMN_REGEX_match qualified_column with
       | Some table_alias => referenced_aliases ∪ {[ table_alias ]}
       | None => referenced_aliases
       end)
    ∅ referenced_columns.

(** [SimpleJoinOptimizer.process_query].  [pop()] is called on a set of one
    element, which it returns; [from_tables[alias]] raises [KeyError] for an
    alias that is no key. *)
Definition SimpleJoinOptimizer_process_query (query : query_Query)
    (request_settings : RequestSettings) : result query_Query :=
  match get_data_source query with
  | SingleTable _ => Ok query
  | JoinClause from_tables =>
      let referenced_columns := all_referenced_columns query in
      let referenced_aliases := referenced_aliases_of referenced_columns in
      if decide (size referenced_aliases ≠ 1%nat) then Ok query
      else
        match elements referenced_aliases with
        | [] => Raise KeyError
        | table_alias :: _ =>
            match from_tables !! table_alias with
            | None => Raise KeyError
            | Some table => Ok (set_data_source query table)
            end
        end
  end.

End JoinOptimizer.

Arguments JoinClause {_} _.
Arguments SingleTable {_} _.
Arguments query_data_source {_ _} _.
Arguments query_body {_ _} _.
Arguments get_data_source {_ _} _.
Arguments set_data_source {_ _} _ _.
Arguments SimpleJoinOptimizer_process_query {_ _} _ _ _ _.

(** ** More concrete inputs *)

(** The alias of a qualified column name, as the text before its first dot;
    a stand-in for the regular expression of [snuba.query.columns]. *)
Fixpoint alias_before_dot (column : string) : option string :=
  match column with
  | EmptyString => None
  | String c rest =>
      if decide (c = Ascii.ascii_of_nat 46) then Some EmptyString
      else String c <$> alias_before_dot rest
  end.

(** A join of the tables [events], under the alias [e], and [groups], under
    the alias [g]. *)
Definition join_events_groups : DataSource string :=
  JoinClause {[ "e" := "events"; "g" := "groups" ]}.

(** A query over that join whose columns are all of [e]. *)
Definition query_events_only : query_Query string (list string) :=
  {| query_data_source := join_events_groups;
     query_body := ["e.event_id"; "count"; "e.project_id"] |}.

(** A query over that join with columns of both tables. *)
Definition query_both_tables : query_Query string (list string) :=
  {| query_data_source := join_events_groups;
     query_body := ["e.event_id"; "g.status"] |}.

(** A query over that join whose columns are of a table the join lacks. *)
Definition query_unknown_alias : query_Query string (list string) :=
  {| query_data_source := join_events_groups;
     query_body := ["t.transaction_id"] |}.

(** A table writer with its own options. *)
Definition writer_with_options : TableWriter unit unit unit unit Z :=
  {| _TableWriter__cluster := ();
     _TableWriter__table_schema := ();
     _TableWriter__stream_loader := ();
     _TableWriter__replacer_processor := None;
     _TableWriter__writer_options :=
       Some {[ "insert_distributed_sync" := 1 ]} |}.

(** A settings object with an organization limit attached already. *)
Definition settings_with_organization_limit : HTTPRequestSettings :=
  {| http_referrer := "api";
     _HTTPRequestSettings__turbo := false;
     _HTTPRequestSettings__consistent := false;
     _HTTPRequestSettings__debug := false;
     _HTTPRequestSettings__parent_api := "<unknown>";
     _HTTPRequestSettings__dry_run := false;
     _HTTPRequestSettings__legacy := false;
     _HTTPRequestSettings__team := "<unknown>";
     _HTTPRequestSettings__feature := "<unknown>";
     _HTTPRequestSettings__app_id := "default";
     _HTTPRequestSettings__rate_limit_params :=
       [rate_limit.mkRateLimitParameters "organization" "7" (Some 3) None];
     _HTTPRequestSettings__resource_quota := None |}.

(** A query naming two projects. *)
Definition query_projects_1_2 : @Query example_externals :=
  {[ "project_id" := {[ 1; 2 ]} ]}.

(** A query with the conditions [org_id = 42] and [project_id = 1]. *)
Definition query_org_42_project_1 : @Query example_externals :=
  {[ "org_id" := {[ 42 ]}; "project_id" := {[ 1 ]} ]}.

(** A topic map that renames the topic [events]. *)
Definition topic_map_events : gmap string string :=
  {[ "events" := "ingest-events" ]}.

(** * Properties *)

(** ** The settings object *)

Lemma add_rate_limit_subscription sub rate_limit_param :
  add_rate_limit (OfSubscription sub) rate_limit_param = OfSubscription sub.
Proof. reflexivity. Qed.

Lemma add_rate_limits_subscription sub calls :
  add_rate_limits (OfSubscription sub) calls = OfSubscription sub.
Proof.
  unfold add_rate_limits. induction calls as [|c calls IH]; simpl; auto.
Qed.

Lemma set_resource_quotas_subscription sub calls :
  set_resource_quotas (OfSubscription sub) calls = OfSubscription sub.
Proof.
  unfold set_resource_quotas. induction calls as [|c calls IH]; simpl; auto.
Qed.

Lemma get_rate_limit_params_add_http h rate_limit_param :
  get_rate_limit_params (add_rate_limit (OfHTTP h) rate_limit_param)
  = (get_rate_limit_params (OfHTTP h) ++ [rate_limit_param])%list.
Proof. reflexivity. Qed.

(** ** The processors *)

Section ProcessorProperties.

Context `{Externals}.
Implicit Types (store : gmap string Z) (self : Processor) (query : Query).
Implicit Types (request_settings : RequestSettings) (obj_id : string).

Lemma unpack2_get_configs store k1 d1 k2 d2 :
  unpack2 (get_configs store [(k1, d1); (k2, d2)])
  = Ok (get_config store k1 d1, get_config store k2 d2).
Proof. reflexivity. Qed.

(** The guard is a membership test on the names of the entries. *)
Lemma _is_already_applied_true self request_settings :
  _is_already_applied self request_settings = true
  ↔ ∃ ex, ex ∈ get_rate_limit_params request_settings
          ∧ rate_limit.rate_limit_name ex = rate_limit_name self.
Proof.
  unfold _is_already_applied.
  induction (get_rate_limit_params request_settings) as [|ex rest IH].
  - split; [discriminate|]. intros (ex & Hin & _). by apply elem_of_nil in Hin.
  - case_decide as Hname.
    + split; [|done]. intros _. exists ex. split; [left|done].
    + rewrite IH. split.
      * intros (ex' & Hin & Hex'). exists ex'. split; [by right|done].
      * intros (ex' & Hin & Hex'). apply elem_of_cons in Hin as [->|Hin].
        -- contradiction.
        -- by exists ex'.
Qed.

Lemma _is_already_applied_add_http self h rate_limit_param :
  rate_limit.rate_limit_name rate_limit_param = rate_limit_name self →
  _is_already_applied self (add_rate_limit (OfHTTP h) rate_limit_param) = true.
Proof.
  intros Hname. apply _is_already_applied_true. exists rate_limit_param.
  split; [|done]. rewrite get_rate_limit_params_add_http.
  apply elem_of_app. right. left.
Qed.

Lemma _is_already_applied_subscription self sub :
  _is_already_applied self (OfSubscription sub) = false.
Proof. reflexivity. Qed.

(** [set.pop()] is only reached on a set that is not empty: neither
    implementation of [get_object_id] raises. *)
Lemma pop_object_id_returns self query :
  ∃ o, pop_object_id self query = Ok o.
Proof.
  unfold pop_object_id.
  destruct (get_object_ids_in_query_ast query (object_column self))
    as [obj_ids|]; [|by eexists].
  case_decide as Hempty; [by eexists|].
  destruct (set_pop_nonempty pop obj_ids Hempty) as [x ->]. by eexists.
Qed.

Lemma get_object_id_returns self query request_settings :
  ∃ o, get_object_id self query request_settings = Ok o.
Proof.
  unfold get_object_id.
  destruct (pop_object_id_returns self query) as [o Ho].
  destruct (class_of self); rewrite ?Ho; simpl; try by eexists.
  all: destruct o as [obj_id|]; [|by eexists].
  all: destruct (request_settings_field self) as [field|]; [|by eexists].
  all: destruct (getattr_or_None request_settings field); by eexists.
Qed.

(** With nothing to extract, the two extracting implementations return
    [None]. *)
Lemma pop_object_id_no_ids self query :
  get_object_ids_in_query_ast query (object_column self) = None
  ∨ get_object_ids_in_query_ast query (object_column self) = Some ∅ →
  pop_object_id self query = Ok None.
Proof.
  unfold pop_object_id. intros [-> | ->]; [done|]. by rewrite decide_True.
Qed.

(** With ids to extract, they return the string form of one of them. *)
Lemma pop_object_id_some self query obj_ids :
  get_object_ids_in_query_ast query (object_column self) = Some obj_ids →
  obj_ids ≠ ∅ →
  ∃ x, x ∈ obj_ids ∧ pop_object_id self query = Ok (Some (pretty x)).
Proof.
  intros Hids Hne. unfold pop_object_id. rewrite Hids, decide_False by done.
  destruct (set_pop_nonempty pop obj_ids Hne) as [x Hx]. rewrite Hx.
  exists x. split; [|done]. by apply (set_pop_elem pop).
Qed.

(** What [process_query] computes, by the outcome of [get_object_id]: the
    limits it attaches are the two-tier [object_limits]. *)
Lemma process_query_unfold store self query request_settings :
  process_query store self query request_settings
  = if _is_already_applied self request_settings then Ok request_settings
    else match get_object_id self query request_settings with
         | Raise e => Raise e
         | Ok None => Ok request_settings
         | Ok (Some obj_id) =>
             if decide (skipped store self query request_settings obj_id)
             then Ok request_settings
             else Ok (add_rate_limit request_settings
                        (limit_for store self query request_settings obj_id))
         end.
Proof.
  unfold process_query. destruct (_is_already_applied _ _); [done|].
  rewrite unpack2_get_configs. simpl.
  destruct (get_object_id self query request_settings) as [[obj_id|]|e];
    simpl; done.
Qed.

Lemma process_query_returns store self query request_settings :
  ∃ request_settings',
    process_query store self query request_settings = Ok request_settings'.
Proof.
  rewrite process_query_unfold.
  destruct (get_object_id_returns self query request_settings) as [o ->].
  destruct (_is_already_applied _ _); [by eexists|].
  destruct o as [obj_id|]; [|by eexists]. case_decide; by eexists.
Qed.

Lemma process_query_subscription store self query sub :
  process_query store self query (OfSubscription sub) = Ok (OfSubscription sub).
Proof.
  rewrite process_query_unfold, _is_already_applied_subscription.
  destruct (get_object_id_returns self query (OfSubscription sub)) as [o ->].
  destruct o as [obj_id|]; [|done]. by case_decide.
Qed.

Lemma run_processors_subscription store runs sub :
  run_processors store runs (OfSubscription sub) = Ok (OfSubscription sub).
Proof.
  induction runs as [|[self query] runs IH]; [done|].
  simpl. by rewrite process_query_subscription.
Qed.

(** Running a processor a second time changes nothing, on either kind of
    settings. *)
Lemma process_query_twice store self query request_settings request_settings' :
  process_query store self query request_settings = Ok request_settings' →
  process_query store self query request_settings' = Ok request_settings'.
Proof.
  destruct request_settings as [h|sub].
  2:{ rewrite process_query_subscription. intros [= <-].
      apply process_query_subscription. }
  intros Hfirst. pose proof Hfirst as Hfirst'.
  rewrite process_query_unfold in Hfirst.
  destruct (_is_already_applied self (OfHTTP h)) eqn:Happlied.
  { by simplify_eq. }
  destruct (get_object_id self query (OfHTTP h)) as [[obj_id|]|e];
    [|by simplify_eq|done].
  case_decide; [by simplify_eq|].
  assert (request_settings'
          = add_rate_limit (OfHTTP h)
              (limit_for store self query (OfHTTP h) obj_id)) as ->
    by congruence.
  rewrite process_query_unfold, _is_already_applied_add_http; done.
Qed.

End ProcessorProperties.

(** ** The claims of the specification *)

Section Claims.

Context `{Externals}.
Implicit Types (store : gmap string Z) (self : Processor) (query : Query).
Implicit Types (request_settings : RequestSettings) (obj_id : string).

(** C1. Whatever sequence of [add_rate_limit] calls is applied to a
    [SubscriptionRequestSettings], [get_rate_limit_params] returns the empty
    sequence afterwards; and so it does after any run of rate-limiter
    processors against it, a run that always returns normally. *)
Theorem subscription_settings_never_accumulate_rate_limits
    (sub : SubscriptionRequestSettings) :
  (∀ calls : list RateLimitParameters,
     get_rate_limit_params (add_rate_limits (OfSubscription sub) calls) = [])
  ∧ (∀ store (runs : list (Processor * Query)),
       ∃ request_settings',
         run_processors store runs (OfSubscription sub) = Ok request_settings'
         ∧ get_rate_limit_params request_settings' = []).
Proof.
  split.
  - intros calls. by rewrite add_rate_limits_subscription.
  - intros store runs. exists (OfSubscription sub).
    by rewrite run_processors_subscription.
Qed.

(** C2. Running the same processor twice over a query and an
    [HTTPRequestSettings] leaves the settings as running it once does: the
    first run returns some settings, a second run over these returns them
    unchanged, and whenever the first run changed the settings the guard
    [_is_already_applied] holds of its result, so that the second run returns
    at the guard. *)
Theorem process_query_idempotent store self query (h : HTTPRequestSettings) :
  run_processors store [(self, query); (self, query)] (OfHTTP h)
  = run_processors store [(self, query)] (OfHTTP h)
  ∧ ∃ once,
      process_query store self query (OfHTTP h) = Ok once
      ∧ process_query store self query once = Ok once
      ∧ (once ≠ OfHTTP h → _is_already_applied self once = true).
Proof.
  destruct (process_query_returns store self query (OfHTTP h)) as [once Honce].
  pose proof (process_query_twice _ _ _ _ _ Honce) as Htwice.
  split.
  - simpl. rewrite Honce. simpl. by rewrite Htwice.
  - exists once. split_and!; [done..|]. intros Hchanged.
    rewrite process_query_unfold in Honce.
    destruct (_is_already_applied self (OfHTTP h)); [by simplify_eq|].
    destruct (get_object_id self query (OfHTTP h)) as [[obj_id|]|e];
      [|by simplify_eq|done].
    case_decide; [by simplify_eq|].
    assert (once = add_rate_limit (OfHTTP h)
                     (limit_for store self query (OfHTTP h) obj_id)) as ->
      by congruence.
    by apply _is_already_applied_add_http.
Qed.

(** C5. For every query and every settings object, [get_object_id] of the
    pure-referrer processor returns the [referrer] field of the settings: the
    query plays no part in the result. *)
Theorem referrer_processor_object_id_is_referrer query request_settings :
  get_object_id ReferrerRateLimiterProcessor query request_settings
  = Ok (Some (referrer request_settings)).
Proof. reflexivity. Qed.

(** C6. When the processor's default limit is unset and both the per-second
    and the concurrent lookup for the resolved object yield [None],
    [process_query] returns the settings unchanged, attaching nothing. *)
Theorem process_query_skips_when_unlimited
    store self query request_settings :
  default_limit self = None →
  (∀ obj_id,
     get_object_id self query request_settings = Ok (Some obj_id) →
     object_limits store self query request_settings obj_id = (None, None)) →
  process_query store self query request_settings = Ok request_settings.
Proof.
  intros Hdefault Hlimits. rewrite process_query_unfold.
  destruct (_is_already_applied self request_settings); [done|].
  destruct (get_object_id_returns self query request_settings) as [o Ho].
  rewrite Ho. destruct o as [obj_id|]; [|done].
  rewrite decide_True; [done|].
  unfold skipped. by rewrite (Hlimits obj_id Ho).
Qed.

(** C8. For a processor that extracts object ids from the query (every class
    but the pure-referrer one, which never consults the query): when the
    accessor finds no ids on the processor's column, be it [None] or the
    empty set, [process_query] returns normally and the settings, with their
    rate-limit sequence, are what they were before the call. *)
Theorem process_query_without_object_ids store self query request_settings :
  class_of self ≠ ReferrerRateLimiterProcessorClass →
  get_object_ids_in_query_ast query (object_column self) = None
  ∨ get_object_ids_in_query_ast query (object_column self) = Some ∅ →
  process_query store self query request_settings = Ok request_settings.
Proof.
  intros Hclass Hnone. rewrite process_query_unfold.
  destruct (_is_already_applied self request_settings); [done|].
  unfold get_object_id. rewrite (pop_object_id_no_ids _ _ Hnone).
  by destruct (class_of self).
Qed.

(** C3. The limits [process_query] attaches for the object id it resolves
    are found in two tiers: the global pair of the category is looked up with
    the processor's static default as fallback, then the pair of the object
    under the two names suffixed with [_] and the object id, with the global
    pair as fallback.  Hence, when the global pair is (10, 5) and the store
    holds the override (2, 1) for the object 42 and for no other object, the
    limits of object 42 are (2, 1) and those of any other object (10, 5). *)
Theorem two_tier_limit_resolution
    store self query request_settings obj_id :
  _is_already_applied self request_settings = false →
  get_object_id self query request_settings = Ok (Some obj_id) →
  let per_second_name := get_per_second_name self query request_settings in
  let concurrent_name := get_concurrent_name self query request_settings in
  let object_rate_limit :=
    get_config store per_second_name (default_limit self) in
  let object_concurrent_limit :=
    get_config store concurrent_name (default_limit self) in
  process_query store self query request_settings
  = Ok (if decide (skipped store self query request_settings obj_id)
        then request_settings
        else add_rate_limit request_settings
               (limit_for store self query request_settings obj_id))
  ∧ limit_for store self query request_settings obj_id
    = rate_limit.mkRateLimitParameters (rate_limit_name self) obj_id
        (get_config store (per_second_name +:+ "_" +:+ obj_id)
           object_rate_limit)
        (get_config store (concurrent_name +:+ "_" +:+ obj_id)
           object_concurrent_limit)
  ∧ (object_rate_limit = Some 10 →
     object_concurrent_limit = Some 5 →
     store !! (per_second_name +:+ "_" +:+ "42") = Some 2 →
     store !! (concurrent_name +:+ "_" +:+ "42") = Some 1 →
     (∀ other, other ≠ "42" →
        store !! (per_second_name +:+ "_" +:+ other) = None
        ∧ store !! (concurrent_name +:+ "_" +:+ other) = None) →
     object_limits store self query request_settings "42" = (Some 2, Some 1)
     ∧ ∀ other, other ≠ "42" →
         object_limits store self query request_settings other
         = (Some 10, Some 5)).
Proof.
  intros Happlied Hid psn cn global_ps global_c. split_and!.
  - rewrite process_query_unfold, Happlied, Hid. by case_decide.
  - reflexivity.
  - intros Hps Hc Hps42 Hc42 Hother.
    unfold object_limits, global_limits. simpl.
    fold psn cn. fold global_ps global_c. rewrite Hps, Hc. split.
    + unfold get_config. by rewrite Hps42, Hc42.
    + intros other Hne. destruct (Hother other Hne) as [Hps' Hc'].
      unfold get_config. by rewrite Hps', Hc'.
Qed.

(** C4, as amended.  For a query that names exactly one object id [x] on the
    column of an organization, project or project-referrer processor, and an
    [HTTPRequestSettings] on which the processor is not yet applied,
    [process_query] returns normally.  Unless the skip condition holds,
    which it can only for the project-referrer processor whose default limit
    is unset, the rate-limit sequence afterwards is the one before followed
    by exactly one entry, named after the processor's category and with the
    string form of [x] as bucket; under the skip condition the settings are
    unchanged. *)
Theorem single_object_id_attaches_one_limit
    store column query (h : HTTPRequestSettings) (x : Z) self :
  self = OrganizationRateLimiterProcessor column
  ∨ self = ProjectRateLimiterProcessor column
  ∨ self = ProjectReferrerRateLimiter column →
  get_object_ids_in_query_ast query column = Some {[ x ]} →
  _is_already_applied self (OfHTTP h) = false →
  ∃ request_settings',
    process_query store self query (OfHTTP h) = Ok request_settings'
    ∧ if decide (skipped store self query (OfHTTP h) (pretty x))
      then self = ProjectReferrerRateLimiter column
           ∧ request_settings' = OfHTTP h
      else ∃ per_second concurr,
          get_rate_limit_params request_settings'
          = (get_rate_limit_params (OfHTTP h)
             ++ [rate_limit.mkRateLimitParameters (rate_limit_name self)
                   (pretty x) per_second concurr])%list.
Proof.
  intros Hself Hids Happlied.
  assert (get_object_id self query (OfHTTP h) = Ok (Some (pretty x))) as Hid.
  { assert (object_column self = column) as Hcol
      by (by destruct Hself as [->|[->| ->]]).
    destruct (pop_object_id_some self query {[ x ]}) as (y & Hy & Hpop).
    { by rewrite Hcol. }
    { apply non_empty_singleton_L. }
    apply elem_of_singleton in Hy as ->.
    unfold get_object_id.
    destruct Hself as [->|[->| ->]]; simpl in *; by rewrite ?Hpop. }
  rewrite process_query_unfold, Happlied, Hid.
  case_decide as Hskip.
  - eexists. split; [done|]. split; [|done].
    destruct Hskip as [Hdefault _].
    by destruct Hself as [->|[->| ->]].
  - eexists. split; [done|]. do 2 eexists. reflexivity.
Qed.

(** C7, as amended.  For a query that names project ids on the processor's
    column and settings on which [ProjectReferrerRateLimiter] is not yet
    applied: the names under which the limits are looked up are the
    configured names suffixed with [_] and the settings' referrer, the object
    id is the string form of one of the project ids, and [process_query]
    returns normally.  On an [HTTPRequestSettings], unless the skip condition
    holds, the rate limits afterwards are those before followed by exactly
    one entry, named after the project-referrer category, whose bucket is
    that project id alone; under the skip condition they are those before.
    On a [SubscriptionRequestSettings] nothing is attached. *)
Theorem project_referrer_limit_bucket
    store project_column query request_settings (obj_ids : gset Z) :
  get_object_ids_in_query_ast query project_column = Some obj_ids →
  obj_ids ≠ ∅ →
  _is_already_applied (ProjectReferrerRateLimiter project_column)
    request_settings = false →
  let self := ProjectReferrerRateLimiter project_column in
  get_per_second_name self query request_settings
  = "project_referrer_per_second_limit" +:+ "_" +:+ referrer request_settings
  ∧ get_concurrent_name self query request_settings
    = "project_referrer_concurrent_limit" +:+ "_" +:+ referrer request_settings
  ∧ ∃ x, x ∈ obj_ids
      ∧ get_object_id self query request_settings = Ok (Some (pretty x))
      ∧ let entry :=
          rate_limit.mkRateLimitParameters
            PROJECT_REFERRER_RATE_LIMIT_NAME (pretty x)
            (object_limits store self query request_settings (pretty x)).1
            (object_limits store self query request_settings (pretty x)).2 in
        ∃ request_settings',
          process_query store self query request_settings
          = Ok request_settings'
          ∧ request_settings'
            = (if decide (skipped store self query request_settings
                            (pretty x))
               then request_settings
               else add_rate_limit request_settings entry)
          ∧ get_rate_limit_params request_settings'
            = match request_settings with
              | OfHTTP _ =>
                  if decide (skipped store self query request_settings
                               (pretty x))
                  then get_rate_limit_params request_settings
                  else (get_rate_limit_params request_settings
                        ++ [entry])%list
              | OfSubscription _ => []
              end.
Proof.
  intros Hids Hne Happlied self. fold self in Happlied.
  split_and!; [done..|].
  destruct (pop_object_id_some self query obj_ids Hids Hne) as (x & Hx & Hpop).
  exists x. split_and!; [done..|]. intros entry.
  rewrite process_query_unfold, Happlied. unfold get_object_id. simpl.
  rewrite Hpop.
  exists (if decide (skipped store self query request_settings (pretty x))
          then request_settings
          else add_rate_limit request_settings entry).
  split_and!.
  - by case_decide.
  - reflexivity.
  - destruct request_settings as [h|sub]; by case_decide.
Qed.

End Claims.

(** C10. Whatever sequence of [set_resource_quota] calls is applied to a
    [SubscriptionRequestSettings], [get_resource_quota] returns [None]
    afterwards. *)
Theorem subscription_settings_ignore_resource_quota
    (sub : SubscriptionRequestSettings) (calls : list ResourceQuota) :
  get_resource_quota (set_resource_quotas (OfSubscription sub) calls) = None.
Proof. by rewrite set_resource_quotas_subscription. Qed.

(** ** The claims at concrete inputs *)

Local Existing Instance example_externals.

(** [store_org_42] holds an override for the organization 42 only. *)
Lemma store_org_42_other_objects other :
  other ≠ "42" →
  store_org_42 !! ("org_per_second_limit" +:+ "_" +:+ other) = None
  ∧ store_org_42 !! ("org_concurrent_limit" +:+ "_" +:+ other) = None.
Proof.
  intros Hne. unfold store_org_42. split.
  all: rewrite !lookup_insert_ne, lookup_singleton_ne; [done|..].
  all: intros Heq; cbv [String.append] in Heq; by simplify_eq.
Qed.

(** The organization processor on a query naming organization 42, with the
    store [store_org_42]. *)
Lemma two_tier_limit_resolution_witness :
  _is_already_applied (OrganizationRateLimiterProcessor "org_id")
    (OfHTTP (HTTPRequestSettings_of_referrer "api")) = false
  ∧ get_object_id (OrganizationRateLimiterProcessor "org_id") query_org_42
      (OfHTTP (HTTPRequestSettings_of_referrer "api")) = Ok (Some "42")
  ∧ process_query store_org_42 (OrganizationRateLimiterProcessor "org_id")
      query_org_42 (OfHTTP (HTTPRequestSettings_of_referrer "api"))
    = Ok (add_rate_limit (OfHTTP (HTTPRequestSettings_of_referrer "api"))
            (rate_limit.mkRateLimitParameters "organization" "42"
               (Some 2) (Some 1)))
  ∧ object_limits store_org_42 (OrganizationRateLimiterProcessor "org_id")
      query_org_42 (OfHTTP (HTTPRequestSettings_of_referrer "api")) "42"
    = (Some 2, Some 1)
  ∧ object_limits store_org_42 (OrganizationRateLimiterProcessor "org_id")
      query_org_42 (OfHTTP (HTTPRequestSettings_of_referrer "api")) "7"
    = (Some 10, Some 5).
Proof.
  assert (_is_already_applied (OrganizationRateLimiterProcessor "org_id")
            (OfHTTP (HTTPRequestSettings_of_referrer "api")) = false) as Ha
    by reflexivity.
  assert (get_object_id (OrganizationRateLimiterProcessor "org_id")
            query_org_42 (OfHTTP (HTTPRequestSettings_of_referrer "api"))
          = Ok (Some "42")) as Hid
    by (vm_compute; reflexivity).
  destruct (two_tier_limit_resolution store_org_42 _ _ _ _ Ha Hid)
    as (Hpq & _ & Hexample).
  destruct Hexample as [H42 Hother];
    [vm_compute; reflexivity.. | apply store_org_42_other_objects |].
  split_and!; [done | done | | done | by apply Hother].
  rewrite Hpq. vm_compute. reflexivity.
Defined.

(** The project processor on a query naming the single project 1, with an
    empty store: one entry, for the bucket [1]. *)
Lemma single_object_id_attaches_one_limit_witness :
  get_object_ids_in_query_ast query_project_1 "project_id" = Some {[ 1 ]}
  ∧ _is_already_applied (ProjectRateLimiterProcessor "project_id")
      (OfHTTP (HTTPRequestSettings_of_referrer "api")) = false
  ∧ ∃ request_settings' per_second concurr,
      process_query ∅ (ProjectRateLimiterProcessor "project_id")
        query_project_1 (OfHTTP (HTTPRequestSettings_of_referrer "api"))
      = Ok request_settings'
      ∧ get_rate_limit_params request_settings'
        = [rate_limit.mkRateLimitParameters "project" "1" per_second concurr].
Proof.
  assert (get_object_ids_in_query_ast query_project_1 "project_id"
          = Some {[ 1 ]}) as Hids
    by (vm_compute; reflexivity).
  assert (_is_already_applied (ProjectRateLimiterProcessor "project_id")
            (OfHTTP (HTTPRequestSettings_of_referrer "api")) = false) as Ha
    by reflexivity.
  split_and!; [done..|].
  destruct (single_object_id_attaches_one_limit ∅ "project_id"
              query_project_1 (HTTPRequestSettings_of_referrer "api") 1
              (ProjectRateLimiterProcessor "project_id")
              (or_intror (or_introl eq_refl)) Hids Ha)
    as (request_settings' & Hpq & Hentry).
  rewrite decide_False in Hentry by (intros [Hdefault _]; discriminate).
  destruct Hentry as (per_second & concurr & Hentry).
  by exists request_settings', per_second, concurr.
Defined.

(** The pure-referrer processor with an empty store: nothing resolves, and
    nothing is attached. *)
Lemma process_query_skips_when_unlimited_witness :
  default_limit ReferrerRateLimiterProcessor = None
  ∧ object_limits ∅ ReferrerRateLimiterProcessor query_no_conditions
      (OfHTTP (HTTPRequestSettings_of_referrer "api")) "api" = (None, None)
  ∧ process_query ∅ ReferrerRateLimiterProcessor query_no_conditions
      (OfHTTP (HTTPRequestSettings_of_referrer "api"))
    = Ok (OfHTTP (HTTPRequestSettings_of_referrer "api")).
Proof.
  split_and!; [reflexivity | vm_compute; reflexivity |].
  apply process_query_skips_when_unlimited; [reflexivity|].
  intros obj_id Hid. vm_compute in Hid. simplify_eq.
  vm_compute. reflexivity.
Defined.

(** The project processor on a query without conditions. *)
Lemma process_query_without_object_ids_witness :
  class_of (ProjectRateLimiterProcessor "project_id")
  ≠ ReferrerRateLimiterProcessorClass
  ∧ get_object_ids_in_query_ast query_no_conditions "project_id" = None
  ∧ process_query store_org_42 (ProjectRateLimiterProcessor "project_id")
      query_no_conditions (OfHTTP (HTTPRequestSettings_of_referrer "api"))
    = Ok (OfHTTP (HTTPRequestSettings_of_referrer "api")).
Proof.
  assert (class_of (ProjectRateLimiterProcessor "project_id")
          ≠ ReferrerRateLimiterProcessorClass) as Hclass
    by discriminate.
  assert (get_object_ids_in_query_ast query_no_conditions "project_id"
          = None) as Hnone
    by (vm_compute; reflexivity).
  split_and!; [done..|].
  apply process_query_without_object_ids; [exact Hclass|].
  left. exact Hnone.
Defined.

(** The project-referrer processor on a query naming project 1, for the
    referrer [api]. *)
Lemma project_referrer_limit_bucket_witness :
  get_object_ids_in_query_ast query_project_1 "project_id" = Some {[ 1 ]}
  ∧ ({[ 1 ]} : gset Z) ≠ ∅
  ∧ _is_already_applied (ProjectReferrerRateLimiter "project_id")
      (OfHTTP (HTTPRequestSettings_of_referrer "api")) = false
  ∧ get_per_second_name (ProjectReferrerRateLimiter "project_id")
      query_project_1 (OfHTTP (HTTPRequestSettings_of_referrer "api"))
    = "project_referrer_per_second_limit_api"
  ∧ process_query store_project_referrer
      (ProjectReferrerRateLimiter "project_id") query_project_1
      (OfHTTP (HTTPRequestSettings_of_referrer "api"))
    = Ok (add_rate_limit (OfHTTP (HTTPRequestSettings_of_referrer "api"))
            (rate_limit.mkRateLimitParameters "project_referrer" "1"
               (Some 7) None)).
Proof.
  assert (get_object_ids_in_query_ast query_project_1 "project_id"
          = Some {[ 1 ]}) as Hids
    by (vm_compute; reflexivity).
  assert (({[ 1 ]} : gset Z) ≠ ∅) as Hne
    by apply non_empty_singleton_L.
  assert (_is_already_applied (ProjectReferrerRateLimiter "project_id")
            (OfHTTP (HTTPRequestSettings_of_referrer "api")) = false) as Ha
    by reflexivity.
  destruct (project_referrer_limit_bucket store_project_referrer
              "project_id" query_project_1
              (OfHTTP (HTTPRequestSettings_of_referrer "api")) {[ 1 ]}
              Hids Hne Ha)
    as (Hps & _ & x & Hx & _ & request_settings' & Hpq & Heq & _).
  apply elem_of_singleton in Hx. subst x.
  split_and!; [done | done | done | exact Hps |].
  rewrite Hpq, Heq. vm_compute. reflexivity.
Defined.

(** C4 as stated fails for the project-referrer category: its processor has
    no default limit, so with nothing configured in the store a query naming
    the single project 1 gets no entry at all. *)
Lemma project_referrer_without_limits_attaches_nothing :
  get_object_ids_in_query_ast query_project_1 "project_id" = Some {[ 1 ]}
  ∧ get_rate_limit_params (OfHTTP (HTTPRequestSettings_of_referrer "api")) = []
  ∧ process_query ∅ (ProjectReferrerRateLimiter "project_id") query_project_1
      (OfHTTP (HTTPRequestSettings_of_referrer "api"))
    = Ok (OfHTTP (HTTPRequestSettings_of_referrer "api"))
  ∧ ¬ ∃ request_settings' entry,
        process_query ∅ (ProjectReferrerRateLimiter "project_id")
          query_project_1 (OfHTTP (HTTPRequestSettings_of_referrer "api"))
        = Ok request_settings'
        ∧ get_rate_limit_params request_settings' = [entry].
Proof.
  assert (process_query ∅ (ProjectReferrerRateLimiter "project_id")
            query_project_1 (OfHTTP (HTTPRequestSettings_of_referrer "api"))
          = Ok (OfHTTP (HTTPRequestSettings_of_referrer "api"))) as Hpq
    by (vm_compute; reflexivity).
  split_and!; [vm_compute; reflexivity | reflexivity | exact Hpq |].
  intros (request_settings' & entry & Hpq' & Hentry).
  rewrite Hpq in Hpq'. injection Hpq' as <-. discriminate Hentry.
Qed.

(** C7 as stated fails: the bucket of the entry the project-referrer processor
    attaches is the project id alone.  With limits configured for project 1
    under the referrers [api] and [tagstore], requests of either referrer get
    the bucket [1]; only the configuration keys, and so the limits, differ. *)
Lemma project_referrer_bucket_ignores_referrer :
  process_query store_project_referrer
    (ProjectReferrerRateLimiter "project_id") query_project_1
    (OfHTTP (HTTPRequestSettings_of_referrer "api"))
  = Ok (add_rate_limit (OfHTTP (HTTPRequestSettings_of_referrer "api"))
          (rate_limit.mkRateLimitParameters "project_referrer" "1"
             (Some 7) None))
  ∧ process_query store_project_referrer
      (ProjectReferrerRateLimiter "project_id") query_project_1
      (OfHTTP (HTTPRequestSettings_of_referrer "tagstore"))
    = Ok (add_rate_limit (OfHTTP (HTTPRequestSettings_of_referrer "tagstore"))
            (rate_limit.mkRateLimitParameters "project_referrer" "1"
               (Some 9) None)).
Proof. split; vm_compute; reflexivity. Qed.

(** * Further properties of the code *)

(** ** request_settings.py *)

(** X1. On an [HTTPRequestSettings], whatever [set_resource_quota] calls come
    in between, the rate limits are those it had followed by the arguments of
    the [add_rate_limit] calls, in the order of the calls: nothing is
    dropped, merged or reordered, duplicates included. *)
Theorem http_rate_limits_are_appended_in_order
    (h : HTTPRequestSettings) (calls : list SettingsCall) :
  get_rate_limit_params (call_settings_seq (OfHTTP h) calls)
  = (get_rate_limit_params (OfHTTP h) ++ omap added_rate_limit calls)%list.
Proof.
  unfold call_settings_seq. revert h.
  induction calls as [|c calls IH]; intros h.
  - simpl. by rewrite app_nil_r.
  - destruct c; simpl; rewrite IH; simpl; [|done].
    by rewrite <- app_assoc.
Qed.

(** X2. On an [HTTPRequestSettings], the quota after a sequence of calls is
    the argument of the last [set_resource_quota] call, and the quota it had
    when there is no such call; [add_rate_limit] calls do not touch it. *)
Theorem http_resource_quota_is_last_set
    (h : HTTPRequestSettings) (calls : list SettingsCall) :
  get_resource_quota (call_settings_seq (OfHTTP h) calls)
  = match last (omap set_quota calls) with
    | Some quota => Some quota
    | None => get_resource_quota (OfHTTP h)
    end.
Proof.
  unfold call_settings_seq. revert h.
  induction calls as [|c calls IH]; intros h; [done|].
  destruct c as [rate_limit_param|quota]; simpl; rewrite IH; simpl.
  all: change (list_omap _ _ set_quota calls) with (omap set_quota calls).
  - done.
  - rewrite last_cons. by destruct (last (omap set_quota calls)).
Qed.

(** X3. No sequence of [add_rate_limit] and [set_resource_quota] calls
    changes what the other getters return, on either kind of settings; and a
    [SubscriptionRequestSettings] is left as it was altogether. *)
Theorem settings_calls_keep_flags
    (request_settings : RequestSettings) (sub : SubscriptionRequestSettings)
    (calls : list SettingsCall) :
  flags (call_settings_seq request_settings calls) = flags request_settings
  ∧ call_settings_seq (OfSubscription sub) calls = OfSubscription sub.
Proof.
  unfold call_settings_seq. split.
  - revert request_settings.
    induction calls as [|c calls IH]; intros request_settings; [done|].
    simpl. rewrite IH. by destruct c, request_settings.
  - induction calls as [|c calls IH]; [done|]. by destruct c.
Qed.

(** ** object_id_rate_limiter.py *)

Section MoreProcessorProperties.

Context `{Externals}.
Implicit Types (store : gmap string Z) (self : Processor) (query : Query).
Implicit Types (request_settings : RequestSettings) (obj_id : string).

Lemma get_config_None store key default :
  get_config store key default = None ↔ store !! key = None ∧ default = None.
Proof.
  unfold get_config. destruct (store !! key) as [v|]; [|tauto].
  split; [discriminate|]. by intros [? _].
Qed.

Lemma get_config_is_Some store key default :
  is_Some default → is_Some (get_config store key default).
Proof. unfold get_config. destruct (store !! key); eauto. Qed.

Lemma get_rate_limit_params_add request_settings rate_limit_param :
  get_rate_limit_params (add_rate_limit request_settings rate_limit_param)
  = (get_rate_limit_params request_settings
     ++ match request_settings with
        | OfHTTP _ => [rate_limit_param]
        | OfSubscription _ => []
        end)%list.
Proof. by destruct request_settings. Qed.

Lemma flags_add_rate_limit request_settings rate_limit_param :
  flags (add_rate_limit request_settings rate_limit_param)
  = flags request_settings
  ∧ get_resource_quota (add_rate_limit request_settings rate_limit_param)
    = get_resource_quota request_settings.
Proof. by destruct request_settings. Qed.

Lemma _is_already_applied_false self request_settings :
  _is_already_applied self request_settings = false →
  rate_limit_name self
  ∉ rate_limit.rate_limit_name <$> get_rate_limit_params request_settings.
Proof.
  intros Hfalse Hin. apply list_elem_of_fmap in Hin as (ex & Hname & Hin).
  assert (_is_already_applied self request_settings = true) as Htrue
    by (apply _is_already_applied_true; eauto).
  congruence.
Qed.

Lemma _is_already_applied_add_other self request_settings rate_limit_param :
  rate_limit.rate_limit_name rate_limit_param ≠ rate_limit_name self →
  _is_already_applied self (add_rate_limit request_settings rate_limit_param)
  = _is_already_applied self request_settings.
Proof.
  intros Hname.
  destruct (_is_already_applied self request_settings) eqn:Hbefore.
  - apply _is_already_applied_true in Hbefore as (ex & Hin & Hex).
    apply _is_already_applied_true. exists ex. split; [|done].
    rewrite get_rate_limit_params_add. apply elem_of_app. by left.
  - apply not_true_is_false. intros Hafter.
    apply _is_already_applied_true in Hafter as (ex & Hin & Hex).
    rewrite get_rate_limit_params_add in Hin.
    apply elem_of_app in Hin as [Hin|Hin].
    + assert (_is_already_applied self request_settings = true)
        by (apply _is_already_applied_true; eauto).
      congruence.
    + destruct request_settings; [|by apply elem_of_nil in Hin].
      apply list_elem_of_singleton in Hin as ->. contradiction.
Qed.

(** One run appends [attachment], when there is one. *)
Lemma process_query_attachment store self query request_settings :
  process_query store self query request_settings
  = Ok (from_option (add_rate_limit request_settings) request_settings
          (attachment store self query request_settings)).
Proof.
  rewrite process_query_unfold. unfold attachment.
  destruct (_is_already_applied self request_settings); [done|].
  destruct (get_object_id_returns self query request_settings) as [o ->].
  destruct o as [obj_id|]; [|done]. by case_decide.
Qed.

Lemma attachment_Some store self query request_settings rate_limit_param :
  attachment store self query request_settings = Some rate_limit_param →
  rate_limit.rate_limit_name rate_limit_param = rate_limit_name self
  ∧ _is_already_applied self request_settings = false.
Proof.
  unfold attachment.
  destruct (_is_already_applied self request_settings); [done|].
  destruct (get_object_id self query request_settings) as [[obj_id|]|e];
    try done.
  case_decide; [done|]. by intros [= <-].
Qed.

(** Unless a processor is configured with a field that shows the list of
    rate limits, a new entry does not change the object id it resolves. *)
Lemma get_object_id_add_rate_limit self query request_settings rate_limit_param :
  reads_referrer_only self →
  get_object_id self query (add_rate_limit request_settings rate_limit_param)
  = get_object_id self query request_settings.
Proof.
  intros Hreads. unfold get_object_id.
  assert (referrer (add_rate_limit request_settings rate_limit_param)
          = referrer request_settings) as Hreferrer
    by (by destruct request_settings).
  assert (∀ request_settings,
            getattr_or_None request_settings "referrer"
            = Some (referrer request_settings)) as Hgetattr
    by reflexivity.
  destruct Hreads as [Hclass|[Hclass|[Hfield|Hfield]]];
    rewrite ?Hclass, ?Hfield, ?Hgetattr, ?Hreferrer; try done.
  all: destruct (class_of self); rewrite ?Hreferrer; done.
Qed.

(** An entry of another category does not change what such a processor
    attaches. *)
Lemma attachment_add_other store self query request_settings rate_limit_param :
  reads_referrer_only self →
  rate_limit.rate_limit_name rate_limit_param ≠ rate_limit_name self →
  attachment store self query (add_rate_limit request_settings rate_limit_param)
  = attachment store self query request_settings.
Proof.
  intros Hreads Hname. unfold attachment.
  rewrite _is_already_applied_add_other by done.
  rewrite get_object_id_add_rate_limit by done.
  by destruct request_settings.
Qed.

(** X4. A run of any processors over any settings returns normally, and the
    rate limits afterwards are those before, untouched and in their order,
    followed by at most one new entry per processor run, each named after one
    of the processors that ran. *)
Theorem run_processors_appends
    store (runs : list (Processor * Query)) request_settings :
  ∃ request_settings' new,
    run_processors store runs request_settings = Ok request_settings'
    ∧ get_rate_limit_params request_settings'
      = (get_rate_limit_params request_settings ++ new)%list
    ∧ (length new ≤ length runs)%nat
    ∧ Forall (λ entry, ∃ self query,
                (self, query) ∈ runs
                ∧ rate_limit.rate_limit_name entry = rate_limit_name self)
        new.
Proof.
  revert request_settings.
  induction runs as [|[self query] runs IH]; intros request_settings.
  { exists request_settings, []. simpl. by rewrite app_nil_r. }
  simpl. rewrite process_query_attachment. simpl.
  destruct (attachment store self query request_settings) as [entry|] eqn:Ha;
    simpl.
  - destruct (IH (add_rate_limit request_settings entry))
      as (request_settings' & new & Hrun & Hparams & Hlen & Hnames).
    apply attachment_Some in Ha as [Hname _].
    rewrite get_rate_limit_params_add in Hparams.
    assert (Forall (λ entry, ∃ self0 query0,
                      (self0, query0) ∈ (self, query) :: runs
                      ∧ rate_limit.rate_limit_name entry
                        = rate_limit_name self0) new) as Hnames'.
    { eapply Forall_impl; [exact Hnames|].
      intros e (self0 & query0 & Hin & He). exists self0, query0.
      split; [by right|done]. }
    destruct request_settings as [h|sub].
    + exists request_settings', (entry :: new).
      split_and!; [done| |simpl; lia|].
      * by rewrite Hparams, <- app_assoc.
      * constructor; [|done]. exists self, query. split; [left|done].
    + exists request_settings', new.
      split_and!; [done| |simpl; lia|done].
      by rewrite Hparams, app_nil_r.
  - destruct (IH request_settings)
      as (request_settings' & new & Hrun & Hparams & Hlen & Hnames).
    exists request_settings', new. split_and!; [done|done|simpl; lia|].
    eapply Forall_impl; [exact Hnames|].
    intros e (self0 & query0 & Hin & He). exists self0, query0.
    split; [by right|done].
Qed.

(** X5. The processors keep the names of the rate limits unique: if no two
    entries of the settings share a [rate_limit_name] before a run of
    processors, none do after it. *)
Theorem run_processors_keeps_names_unique
    store (runs : list (Processor * Query)) request_settings
    request_settings' :
  NoDup (rate_limit.rate_limit_name
           <$> get_rate_limit_params request_settings) →
  run_processors store runs request_settings = Ok request_settings' →
  NoDup (rate_limit.rate_limit_name
           <$> get_rate_limit_params request_settings').
Proof.
  revert request_settings.
  induction runs as [|[self query] runs IH]; intros request_settings Hnodup.
  { simpl. by intros [= <-]. }
  simpl. rewrite process_query_attachment. simpl.
  apply IH.
  destruct (attachment store self query request_settings) as [entry|] eqn:Ha;
    simpl; [|done].
  apply attachment_Some in Ha as [Hname Happlied].
  apply _is_already_applied_false in Happlied.
  rewrite get_rate_limit_params_add, fmap_app.
  destruct request_settings as [h|sub].
  - apply NoDup_app. split_and!; [done| |apply NoDup_singleton].
    intros name Hin Hin'. apply list_elem_of_singleton in Hin'.
    subst name. by rewrite Hname in Hin.
  - by rewrite app_nil_r.
Qed.

(** X6. A run of processors changes nothing of the settings but the list of
    rate limits: the referrer, every flag and the resource quota are what
    they were. *)
Theorem run_processors_keeps_flags_and_quota
    store (runs : list (Processor * Query)) request_settings
    request_settings' :
  run_processors store runs request_settings = Ok request_settings' →
  flags request_settings' = flags request_settings
  ∧ get_resource_quota request_settings'
    = get_resource_quota request_settings.
Proof.
  revert request_settings.
  induction runs as [|[self query] runs IH]; intros request_settings.
  { simpl. by intros [= <-]. }
  simpl. rewrite process_query_attachment. simpl. intros Hrun.
  apply IH in Hrun as [Hflags Hquota]. rewrite Hflags, Hquota.
  destruct (attachment store self query request_settings) as [entry|];
    [|done].
  apply flags_add_rate_limit.
Qed.

(** X7. Two processors of different categories, neither configured with a
    settings field other than [referrer], do not interfere: run in either
    order over the same settings, they leave the same rate limits up to the
    order of the entries, and the same flags and quota.  (A processor whose
    field names the private list of rate limits would put the entries
    attached before it into its bucket.) *)
Theorem processors_of_distinct_names_commute
    store self1 query1 self2 query2 request_settings :
  reads_referrer_only self1 →
  reads_referrer_only self2 →
  rate_limit_name self1 ≠ rate_limit_name self2 →
  ∃ settings12 settings21,
    run_processors store [(self1, query1); (self2, query2)] request_settings
    = Ok settings12
    ∧ run_processors store [(self2, query2); (self1, query1)] request_settings
      = Ok settings21
    ∧ get_rate_limit_params settings12 ≡ₚ get_rate_limit_params settings21
    ∧ flags settings12 = flags settings21
    ∧ get_resource_quota settings12 = get_resource_quota settings21.
Proof.
  intros Hreads1 Hreads2 Hnames. simpl. rewrite !process_query_attachment.
  simpl.
  rewrite !process_query_attachment. do 2 eexists. split_and!; [done..| | |].
  all: destruct (attachment store self1 query1 request_settings)
         as [entry1|] eqn:Ha1;
       destruct (attachment store self2 query2 request_settings)
         as [entry2|] eqn:Ha2; simpl.
  all: try (pose proof (attachment_Some _ _ _ _ _ Ha1) as [Hname1 _]).
  all: try (pose proof (attachment_Some _ _ _ _ _ Ha2) as [Hname2 _]).
  all: rewrite ?attachment_add_other by (assumption || congruence).
  all: rewrite ?Ha1, ?Ha2; simpl; try done.
  - destruct request_settings as [h|sub]; simpl; [|done].
    rewrite <- !app_assoc. apply Permutation_app_head, Permutation_app_comm.
  - by destruct request_settings.
  - by destruct request_settings.
Qed.

Lemma process_query_with_default_limit
    store self query request_settings obj_id (limit : Z) :
  default_limit self = Some limit →
  _is_already_applied self request_settings = false →
  get_object_id self query request_settings = Ok (Some obj_id) →
  ∃ per_second concurr,
    process_query store self query request_settings
    = Ok (add_rate_limit request_settings
            (rate_limit.mkRateLimitParameters (rate_limit_name self) obj_id
               (Some per_second) (Some concurr))).
Proof.
  intros Hdefault Happlied Hid.
  rewrite process_query_unfold, Happlied, Hid.
  rewrite decide_False by (intros [Hnone _]; congruence).
  unfold limit_for, object_limits, global_limits. simpl.
  destruct (get_config_is_Some store
              (get_per_second_name self query request_settings
               +:+ "_" +:+ obj_id)
              (get_config store
                 (get_per_second_name self query request_settings)
                 (default_limit self)))
    as [per_second ->].
  { apply get_config_is_Some. rewrite Hdefault. eauto. }
  destruct (get_config_is_Some store
              (get_concurrent_name self query request_settings
               +:+ "_" +:+ obj_id)
              (get_config store
                 (get_concurrent_name self query request_settings)
                 (default_limit self)))
    as [concurr ->].
  { apply get_config_is_Some. rewrite Hdefault. eauto. }
  by exists per_second, concurr.
Qed.

(** X8. A processor with a default limit never attaches an unlimited entry:
    when it is not yet applied to an [HTTPRequestSettings] and an object id
    is resolved, the rate limits afterwards are those before followed by one
    entry for that object, both of whose limits are concrete numbers. *)
Theorem default_limit_gives_concrete_limits
    store self query (h : HTTPRequestSettings) obj_id (limit : Z) :
  default_limit self = Some limit →
  _is_already_applied self (OfHTTP h) = false →
  get_object_id self query (OfHTTP h) = Ok (Some obj_id) →
  ∃ request_settings' per_second concurr,
    process_query store self query (OfHTTP h) = Ok request_settings'
    ∧ get_rate_limit_params request_settings'
      = (get_rate_limit_params (OfHTTP h)
         ++ [rate_limit.mkRateLimitParameters (rate_limit_name self) obj_id
               (Some per_second) (Some concurr)])%list.
Proof.
  intros Hdefault Happlied Hid.
  destruct (process_query_with_default_limit store self query (OfHTTP h)
              obj_id limit Hdefault Happlied Hid)
    as (per_second & concurr & Hpq).
  eexists _, per_second, concurr. split; [exact Hpq|]. reflexivity.
Qed.

(** X9. A processor without default limit, not yet applied to an
    [HTTPRequestSettings] and with an object id resolved, leaves the settings
    unchanged exactly when the store holds none of the four keys it looks
    up: the two names of the category and these suffixed with the object
    id. *)
Theorem unlimited_processor_attaches_iff_configured
    store self query (h : HTTPRequestSettings) obj_id :
  default_limit self = None →
  _is_already_applied self (OfHTTP h) = false →
  get_object_id self query (OfHTTP h) = Ok (Some obj_id) →
  process_query store self query (OfHTTP h) = Ok (OfHTTP h)
  ↔ store !! get_per_second_name self query (OfHTTP h) = None
    ∧ store !! get_concurrent_name self query (OfHTTP h) = None
    ∧ store !! (get_per_second_name self query (OfHTTP h)
                +:+ "_" +:+ obj_id) = None
    ∧ store !! (get_concurrent_name self query (OfHTTP h)
                +:+ "_" +:+ obj_id) = None.
Proof.
  intros Hdefault Happlied Hid.
  rewrite process_query_unfold, Happlied, Hid.
  assert (skipped store self query (OfHTTP h) obj_id
          ↔ store !! get_per_second_name self query (OfHTTP h) = None
            ∧ store !! get_concurrent_name self query (OfHTTP h) = None
            ∧ store !! (get_per_second_name self query (OfHTTP h)
                        +:+ "_" +:+ obj_id) = None
            ∧ store !! (get_concurrent_name self query (OfHTTP h)
                        +:+ "_" +:+ obj_id) = None) as Hskip.
  { unfold skipped, object_limits, global_limits. simpl.
    rewrite !get_config_None, Hdefault. tauto. }
  case_decide as Hs.
  - split; [intros _; by apply Hskip|done].
  - split; [|intros Hkeys; by apply Hskip in Hkeys].
    intros [= Heq].
    apply (f_equal _HTTPRequestSettings__rate_limit_params) in Heq.
    simpl in Heq. apply (f_equal length) in Heq.
    rewrite length_app in Heq. simpl in Heq. lia.
Qed.

(** X10. The base processor with [request_settings_field] set to
    [referrer] keys its limit by object and referrer: for a query naming ids
    on its column, the object id is the string form of one of them, [_] and
    the settings' referrer; and when the processor is not yet applied to an
    [HTTPRequestSettings] and the skip condition does not hold, the rate
    limits afterwards are those before followed by one entry with that
    bucket. *)
Theorem base_processor_suffixes_referrer
    store self query (h : HTTPRequestSettings) (obj_ids : gset Z) :
  class_of self = ObjectIDRateLimiterProcessorClass →
  request_settings_field self = Some "referrer" →
  get_object_ids_in_query_ast query (object_column self) = Some obj_ids →
  obj_ids ≠ ∅ →
  ∃ x, x ∈ obj_ids
    ∧ get_object_id self query (OfHTTP h)
      = Ok (Some (pretty x +:+ "_" +:+ http_referrer h))
    ∧ (_is_already_applied self (OfHTTP h) = false →
       ¬ skipped store self query (OfHTTP h)
           (pretty x +:+ "_" +:+ http_referrer h) →
       ∃ request_settings' per_second concurr,
         process_query store self query (OfHTTP h) = Ok request_settings'
         ∧ get_rate_limit_params request_settings'
           = (get_rate_limit_params (OfHTTP h)
              ++ [rate_limit.mkRateLimitParameters (rate_limit_name self)
                    (pretty x +:+ "_" +:+ http_referrer h)
                    per_second concurr])%list).
Proof.
  intros Hclass Hfield Hids Hne.
  destruct (pop_object_id_some self query obj_ids Hids Hne) as (x & Hx & Hpop).
  assert (get_object_id self query (OfHTTP h)
          = Ok (Some (pretty x +:+ "_" +:+ http_referrer h))) as Hid.
  { unfold get_object_id. rewrite Hclass, Hpop. simpl. by rewrite Hfield. }
  exists x. split_and!; [done..|]. intros Happlied Hskip.
  rewrite process_query_unfold, Happlied, Hid, decide_False by done.
  eexists _, _, _. split; reflexivity.
Qed.

(** X11. The organization and the project processor always attach: for a
    query naming one or several ids on their column and an
    [HTTPRequestSettings] on which they are not yet applied, the rate limits
    after [process_query] are those before followed by exactly one entry,
    whose bucket is the string form of one of the ids, with both limits
    concrete. *)
Theorem organization_and_project_processors_attach
    store column query (h : HTTPRequestSettings) (obj_ids : gset Z) self :
  self = OrganizationRateLimiterProcessor column
  ∨ self = ProjectRateLimiterProcessor column →
  get_object_ids_in_query_ast query column = Some obj_ids →
  obj_ids ≠ ∅ →
  _is_already_applied self (OfHTTP h) = false →
  ∃ request_settings' x per_second concurr,
    x ∈ obj_ids
    ∧ process_query store self query (OfHTTP h) = Ok request_settings'
    ∧ get_rate_limit_params request_settings'
      = (get_rate_limit_params (OfHTTP h)
         ++ [rate_limit.mkRateLimitParameters (rate_limit_name self)
               (pretty x) (Some per_second) (Some concurr)])%list.
Proof.
  intros Hself Hids Hne Happlied.
  destruct (pop_object_id_some self query obj_ids) as (x & Hx & Hpop);
    [by destruct Hself as [->| ->]|done|].
  assert (get_object_id self query (OfHTTP h) = Ok (Some (pretty x)))
    as Hid.
  { unfold get_object_id. destruct Hself as [->| ->]; simpl in *;
      by rewrite Hpop. }
  destruct (process_query_with_default_limit store self query
              (OfHTTP h) (pretty x) DEFAULT_LIMIT)
    as (per_second & concurr & Hpq); [by destruct Hself as [->| ->]|done..|].
  eexists _, x, per_second, concurr. split_and!; [done|exact Hpq|reflexivity].
Qed.

(** X12. The guard looks at the name only: an entry with the processor's
    [rate_limit_name] already in the settings, whatever its bucket and
    limits, makes [process_query] return the settings unchanged. *)
Theorem entry_of_same_name_blocks_processor
    store self query request_settings (ex : RateLimitParameters) :
  ex ∈ get_rate_limit_params request_settings →
  rate_limit.rate_limit_name ex = rate_limit_name self →
  process_query store self query request_settings = Ok request_settings.
Proof.
  intros Hin Hname. rewrite process_query_unfold.
  assert (_is_already_applied self request_settings = true) as ->
    by (apply _is_already_applied_true; eauto).
  done.
Qed.

End MoreProcessorProperties.

(** ** table_storage.py *)

Lemma update_writer_options_lookup {C S L R V}
    (self : TableWriter C S L R V) (options : option (gmap string V))
    (key : string) :
  _TableWriter__update_writer_options self options !! key
  = match default ∅ (_TableWriter__writer_options self) !! key with
    | Some value => Some value
    | None => default ∅ options !! key
    end.
Proof.
  unfold _TableWriter__update_writer_options.
  destruct (_TableWriter__writer_options self) as [writer_options|],
    options as [options|]; simpl; rewrite ?lookup_empty; try done.
  all: case_decide as Hsize.
  all: rewrite ?lookup_union, ?lookup_empty.
  all: try (assert (writer_options = ∅) as ->
              by (apply map_size_empty_iff; lia);
            by rewrite ?lookup_empty).
  - by destruct (writer_options !! key), (options !! key).
  - by destruct (writer_options !! key).
Qed.

(** X13. In the options [__update_writer_options] returns, an option the
    table writer was built with has the writer's value, whatever the caller
    passed for it; any other option has the caller's value, and is absent
    when the caller passed none.  Absent options ([None]) count as empty. *)
Theorem writer_options_take_precedence {C S L R V}
    (self : TableWriter C S L R V) (options : option (gmap string V))
    (key : string) :
  _TableWriter__update_writer_options self options !! key
  = match default ∅ (_TableWriter__writer_options self) !! key with
    | Some value => Some value
    | None => default ∅ options !! key
    end.
Proof. apply update_writer_options_lookup. Qed.

(** X14. Updating options that were updated already changes nothing. *)
Theorem update_writer_options_idempotent {C S L R V}
    (self : TableWriter C S L R V) (options : option (gmap string V)) :
  _TableWriter__update_writer_options self
    (Some (_TableWriter__update_writer_options self options))
  = _TableWriter__update_writer_options self options.
Proof.
  apply map_eq. intros key. rewrite (update_writer_options_lookup self (Some _)).
  simpl. rewrite update_writer_options_lookup.
  by destruct (default ∅ (_TableWriter__writer_options self) !! key).
Qed.

(** X15. The number of partitions of a topic is looked up under its name as
    [KAFKA_TOPIC_MAP] renames it, one being the default: for a topic that is
    mapped to another name, a count configured under the topic's own value is
    not read. *)
Theorem partitions_number_reads_mapped_name
    (KAFKA_TOPIC_MAP : gmap string string)
    (TOPIC_PARTITION_COUNTS : gmap string Z)
    (self : KafkaTopicSpec) (name : string) (count : Z) :
  KAFKA_TOPIC_MAP !! Topic_value (KafkaTopicSpec_topic self) = Some name →
  name ≠ Topic_value (KafkaTopicSpec_topic self) →
  KafkaTopicSpec_partitions_number KAFKA_TOPIC_MAP TOPIC_PARTITION_COUNTS self
  = default 1 (TOPIC_PARTITION_COUNTS !! name)
  ∧ KafkaTopicSpec_partitions_number KAFKA_TOPIC_MAP
      (<[Topic_value (KafkaTopicSpec_topic self) := count]>
         TOPIC_PARTITION_COUNTS) self
    = KafkaTopicSpec_partitions_number KAFKA_TOPIC_MAP
        TOPIC_PARTITION_COUNTS self.
Proof.
  intros Hmap Hne.
  unfold KafkaTopicSpec_partitions_number, KafkaTopicSpec_topic_name,
    get_topic_name, KafkaTopicSpec_topic in *.
  rewrite Hmap. simpl. split; [done|]. by rewrite lookup_insert_ne.
Qed.

(** X16. The stream loader built from settings hands back what it was built
    from: its processor and pre-filter, the default topic in its default
    topic specification, and for each optional topic a specification of that
    topic when one was given and none otherwise, with no two of them
    exchanged. *)
Theorem stream_loader_from_settings_round_trip {MessageProcessor Filter}
    (processor : MessageProcessor) (default_topic : Topic)
    (pre_filter : option Filter)
    (replacement_topic commit_log_topic subscription_result_topic
       : option Topic) :
  let loader :=
    build_kafka_stream_loader_from_settings processor default_topic
      pre_filter replacement_topic commit_log_topic
      subscription_result_topic in
  get_processor loader = processor
  ∧ get_pre_filter loader = pre_filter
  ∧ KafkaTopicSpec_topic (get_default_topic_spec loader) = default_topic
  ∧ KafkaTopicSpec_topic <$> get_replacement_topic_spec loader
    = replacement_topic
  ∧ KafkaTopicSpec_topic <$> get_commit_log_topic_spec loader
    = commit_log_topic
  ∧ KafkaTopicSpec_topic <$> get_subscription_result_topic_spec loader
    = subscription_result_topic.
Proof.
  by destruct replacement_topic, commit_log_topic, subscription_result_topic.
Qed.

(** ** join_optimizers.py *)

Section JoinOptimizerProperties.

Context {TableSource QueryBody : Type}.
Variable all_referenced_columns : query_Query TableSource QueryBody → list string.
Variable QUALIFIED_COLUMN_REGEX_match : string → option string.

Implicit Types (query : query_Query TableSource QueryBody).
Implicit Types (request_settings : RequestSettings).

Local Abbreviation optimize query request_settings :=
  (SimpleJoinOptimizer_process_query all_referenced_columns
     QUALIFIED_COLUMN_REGEX_match query request_settings).

(** The loop collects exactly the aliases of the qualified columns. *)
Lemma elem_of_referenced_aliases_of (columns : list string) (alias : string) :
  alias ∈ referenced_aliases_of QUALIFIED_COLUMN_REGEX_match columns
  ↔ ∃ column, column ∈ columns
      ∧ QUALIFIED_COLUMN_REGEX_match column = Some alias.
Proof.
  unfold referenced_aliases_of.
  assert (∀ acc : gset string,
            alias ∈ foldl
              (λ referenced_aliases qualified_column,
                 match QUALIFIED_COLUMN_REGEX_match qualified_column with
                 | Some table_alias => referenced_aliases ∪ {[ table_alias ]}
                 | None => referenced_aliases
                 end) acc columns
            ↔ alias ∈ acc
              ∨ ∃ column, column ∈ columns
                  ∧ QUALIFIED_COLUMN_REGEX_match column = Some alias) as Hgen.
  { induction columns as [|c columns IH]; intros acc; simpl.
    - split; [by left|]. intros [?|(c & Hc & _)]; [done|].
      by apply elem_of_nil in Hc.
    - rewrite IH. split.
      + intros [Hacc|(c' & Hc' & Hm)].
        * destruct (QUALIFIED_COLUMN_REGEX_match c) as [a|] eqn:Hc;
            [|by left].
          apply elem_of_union in Hacc as [Hacc|Hacc]; [by left|].
          apply elem_of_singleton in Hacc as ->. right. exists c.
          split; [left|done].
        * right. exists c'. split; [by right|done].
      + intros [Hacc|(c' & Hc' & Hm)].
        * left. destruct (QUALIFIED_COLUMN_REGEX_match c); [|done].
          apply elem_of_union. by left.
        * apply elem_of_cons in Hc' as [->|Hc'].
          -- left. rewrite Hm. apply elem_of_union. right.
             by apply elem_of_singleton.
          -- right. by exists c'. }
  rewrite Hgen. split; [|by right]. intros [Hempty|?]; [|done].
  by apply not_elem_of_empty in Hempty.
Qed.

(** When every qualified column is of one alias, that alias is the one
    element of the set the loop builds. *)
Lemma referenced_aliases_of_single (columns : list string) (alias : string) :
  (∃ column, column ∈ columns
     ∧ QUALIFIED_COLUMN_REGEX_match column = Some alias) →
  (∀ column other, column ∈ columns →
     QUALIFIED_COLUMN_REGEX_match column = Some other → other = alias) →
  referenced_aliases_of QUALIFIED_COLUMN_REGEX_match columns = {[ alias ]}.
Proof.
  intros Hsome Hall. apply set_eq. intros a.
  rewrite elem_of_referenced_aliases_of, elem_of_singleton. split.
  - intros (c & Hc & Hm). by apply (Hall c).
  - by intros ->.
Qed.

(** X17. On a query over a join all of whose qualified columns carry one
    alias, which is an alias of the join, the optimizer replaces the join by
    the table of that alias and leaves the rest of the query as it is. *)
Theorem join_optimizer_selects_referenced_table
    query request_settings (from_tables : gmap string TableSource)
    (alias : string) (table : TableSource) :
  get_data_source query = JoinClause from_tables →
  (∃ column, column ∈ all_referenced_columns query
     ∧ QUALIFIED_COLUMN_REGEX_match column = Some alias) →
  (∀ column other, column ∈ all_referenced_columns query →
     QUALIFIED_COLUMN_REGEX_match column = Some other → other = alias) →
  from_tables !! alias = Some table →
  optimize query request_settings
  = Ok {| query_data_source := SingleTable table;
          query_body := query_body query |}.
Proof.
  intros Hsource Hsome Hall Htable.
  unfold SimpleJoinOptimizer_process_query. rewrite Hsource.
  rewrite (referenced_aliases_of_single _ alias Hsome Hall).
  rewrite size_singleton, decide_False by lia.
  by rewrite elements_singleton, Htable.
Qed.

(** X18. The optimizer leaves the query as it is when its data source is no
    join, when none of its columns is qualified, and when its qualified
    columns carry two different aliases. *)
Theorem join_optimizer_leaves_query query request_settings :
  (∃ table, get_data_source query = SingleTable table)
  ∨ (∀ column, column ∈ all_referenced_columns query →
       QUALIFIED_COLUMN_REGEX_match column = None)
  ∨ (∃ column1 column2 alias1 alias2,
       column1 ∈ all_referenced_columns query
       ∧ column2 ∈ all_referenced_columns query
       ∧ QUALIFIED_COLUMN_REGEX_match column1 = Some alias1
       ∧ QUALIFIED_COLUMN_REGEX_match column2 = Some alias2
       ∧ alias1 ≠ alias2) →
  optimize query request_settings = Ok query.
Proof.
  unfold SimpleJoinOptimizer_process_query.
  intros [[table ->]|Hcases]; [done|].
  destruct (get_data_source query) as [from_tables|table]; [|done].
  rewrite decide_True; [done|]. intros Hsize.
  destruct Hcases as [Hnone|(c1 & c2 & a1 & a2 & Hc1 & Hc2 & Hm1 & Hm2 & Hne)].
  - apply size_1_elem_of in Hsize as [a Ha].
    assert (a ∈ referenced_aliases_of QUALIFIED_COLUMN_REGEX_match
                  (all_referenced_columns query)) as Hin
      by (rewrite Ha; by apply elem_of_singleton).
    apply elem_of_referenced_aliases_of in Hin as (c & Hc & Hm).
    rewrite (Hnone c Hc) in Hm. discriminate.
  - apply Hne.
    apply (size_singleton_inv _ _ _ Hsize);
      apply elem_of_referenced_aliases_of; eauto.
Qed.

(** X19. On a query over a join all of whose qualified columns carry one
    alias that is no alias of the join, the optimizer raises [KeyError]. *)
Theorem join_optimizer_unknown_alias_raises
    query request_settings (from_tables : gmap string TableSource)
    (alias : string) :
  get_data_source query = JoinClause from_tables →
  (∃ column, column ∈ all_referenced_columns query
     ∧ QUALIFIED_COLUMN_REGEX_match column = Some alias) →
  (∀ column other, column ∈ all_referenced_columns query →
     QUALIFIED_COLUMN_REGEX_match column = Some other → other = alias) →
  from_tables !! alias = None →
  optimize query request_settings = Raise KeyError.
Proof.
  intros Hsource Hsome Hall Htable.
  unfold SimpleJoinOptimizer_process_query. rewrite Hsource.
  rewrite (referenced_aliases_of_single _ alias Hsome Hall).
  rewrite size_singleton, decide_False by lia.
  by rewrite elements_singleton, Htable.
Qed.

(** X20. When the optimizer returns, the rest of the query is untouched and
    the data source is either what it was or one of the tables of the join
    it was, under an alias some column carries; and optimizing the result
    again changes nothing. *)
Theorem join_optimizer_result query query' request_settings :
  optimize query request_settings = Ok query' →
  query_body query' = query_body query
  ∧ (query' = query
     ∨ ∃ from_tables alias table column,
         get_data_source query = JoinClause from_tables
         ∧ from_tables !! alias = Some table
         ∧ column ∈ all_referenced_columns query
         ∧ QUALIFIED_COLUMN_REGEX_match column = Some alias
         ∧ get_data_source query' = SingleTable table)
  ∧ optimize query' request_settings = Ok query'.
Proof.
  intros Hrun. pose proof Hrun as Hrun'.
  unfold SimpleJoinOptimizer_process_query in Hrun.
  destruct (get_data_source query) as [from_tables|table] eqn:Hsource.
  2:{ injection Hrun as <-. by split_and!; [|left|]. }
  case_decide as Hsize.
  { injection Hrun as <-. by split_and!; [|left|]. }
  destruct (elements _) as [|alias rest] eqn:Helements; [done|].
  destruct (from_tables !! alias) as [table|] eqn:Htable; [|done].
  injection Hrun as <-. split_and!; [done| |done].
  right.
  assert (alias ∈ referenced_aliases_of QUALIFIED_COLUMN_REGEX_match
                    (all_referenced_columns query)) as Hin
    by (apply elem_of_elements; rewrite Helements; left).
  apply elem_of_referenced_aliases_of in Hin as (column & Hc & Hm).
  by exists from_tables, alias, table, column.
Qed.

End JoinOptimizerProperties.

(** ** The further properties at concrete inputs *)

(** The organization and the project processor over settings that hold an
    organization limit already. *)
Lemma run_processors_keeps_names_unique_witness :
  NoDup (rate_limit.rate_limit_name
           <$> get_rate_limit_params (OfHTTP settings_with_organization_limit))
  ∧ ∃ request_settings',
      run_processors ∅
        [(OrganizationRateLimiterProcessor "org_id", query_org_42_project_1);
         (ProjectRateLimiterProcessor "project_id", query_org_42_project_1)]
        (OfHTTP settings_with_organization_limit)
      = Ok request_settings'
      ∧ rate_limit.rate_limit_name <$> get_rate_limit_params request_settings'
        = ["organization"; "project"]
      ∧ NoDup (rate_limit.rate_limit_name
                 <$> get_rate_limit_params request_settings').
Proof.
  assert (NoDup (rate_limit.rate_limit_name
                   <$> get_rate_limit_params
                         (OfHTTP settings_with_organization_limit)))
    as Hnodup
    by (apply NoDup_singleton).
  split; [exact Hnodup|].
  eexists. split; [vm_compute; reflexivity|]. split; [reflexivity|].
  apply (run_processors_keeps_names_unique ∅
           [(OrganizationRateLimiterProcessor "org_id", query_org_42_project_1);
            (ProjectRateLimiterProcessor "project_id", query_org_42_project_1)]
           (OfHTTP settings_with_organization_limit) _ Hnodup).
  vm_compute. reflexivity.
Defined.

Lemma run_processors_keeps_flags_and_quota_witness :
  ∃ request_settings',
    run_processors store_org_42
      [(OrganizationRateLimiterProcessor "org_id", query_org_42_project_1);
       (ProjectRateLimiterProcessor "project_id", query_org_42_project_1)]
      (OfHTTP (HTTPRequestSettings_of_referrer "api"))
    = Ok request_settings'
    ∧ flags request_settings'
      = flags (OfHTTP (HTTPRequestSettings_of_referrer "api"))
    ∧ get_resource_quota request_settings' = None.
Proof.
  eexists. split; [vm_compute; reflexivity|].
  apply (run_processors_keeps_flags_and_quota store_org_42
           [(OrganizationRateLimiterProcessor "org_id", query_org_42_project_1);
            (ProjectRateLimiterProcessor "project_id", query_org_42_project_1)]
           (OfHTTP (HTTPRequestSettings_of_referrer "api"))).
  vm_compute. reflexivity.
Defined.

Lemma processors_of_distinct_names_commute_witness :
  reads_referrer_only (OrganizationRateLimiterProcessor "org_id")
  ∧ reads_referrer_only (ProjectRateLimiterProcessor "project_id")
  ∧ rate_limit_name (OrganizationRateLimiterProcessor "org_id")
    ≠ rate_limit_name (ProjectRateLimiterProcessor "project_id")
  ∧ ∃ settings12 settings21,
      run_processors store_org_42
        [(OrganizationRateLimiterProcessor "org_id", query_org_42_project_1);
         (ProjectRateLimiterProcessor "project_id", query_org_42_project_1)]
        (OfHTTP (HTTPRequestSettings_of_referrer "api"))
      = Ok settings12
      ∧ run_processors store_org_42
          [(ProjectRateLimiterProcessor "project_id", query_org_42_project_1);
           (OrganizationRateLimiterProcessor "org_id", query_org_42_project_1)]
          (OfHTTP (HTTPRequestSettings_of_referrer "api"))
        = Ok settings21
      ∧ get_rate_limit_params settings12 ≡ₚ get_rate_limit_params settings21.
Proof.
  assert (rate_limit_name (OrganizationRateLimiterProcessor "org_id")
          ≠ rate_limit_name (ProjectRateLimiterProcessor "project_id"))
    as Hnames
    by discriminate.
  assert (reads_referrer_only (OrganizationRateLimiterProcessor "org_id"))
    as Hreads1
    by (right; right; left; reflexivity).
  assert (reads_referrer_only (ProjectRateLimiterProcessor "project_id"))
    as Hreads2
    by (right; right; left; reflexivity).
  split_and!; [exact Hreads1 | exact Hreads2 | exact Hnames |].
  destruct (processors_of_distinct_names_commute store_org_42
              (OrganizationRateLimiterProcessor "org_id")
              query_org_42_project_1
              (ProjectRateLimiterProcessor "project_id")
              query_org_42_project_1
              (OfHTTP (HTTPRequestSettings_of_referrer "api"))
              Hreads1 Hreads2 Hnames)
    as (settings12 & settings21 & H12 & H21 & Hperm & _).
  by exists settings12, settings21.
Defined.

Lemma default_limit_gives_concrete_limits_witness :
  default_limit (OrganizationRateLimiterProcessor "org_id") = Some 1000
  ∧ _is_already_applied (OrganizationRateLimiterProcessor "org_id")
      (OfHTTP (HTTPRequestSettings_of_referrer "api")) = false
  ∧ get_object_id (OrganizationRateLimiterProcessor "org_id") query_org_42
      (OfHTTP (HTTPRequestSettings_of_referrer "api")) = Ok (Some "42")
  ∧ ∃ request_settings' per_second concurr,
      process_query ∅ (OrganizationRateLimiterProcessor "org_id")
        query_org_42 (OfHTTP (HTTPRequestSettings_of_referrer "api"))
      = Ok request_settings'
      ∧ get_rate_limit_params request_settings'
        = [rate_limit.mkRateLimitParameters "organization" "42"
             (Some per_second) (Some concurr)].
Proof.
  assert (get_object_id (OrganizationRateLimiterProcessor "org_id")
            query_org_42 (OfHTTP (HTTPRequestSettings_of_referrer "api"))
          = Ok (Some "42")) as Hid
    by (vm_compute; reflexivity).
  split_and!; [reflexivity | reflexivity | exact Hid |].
  apply (default_limit_gives_concrete_limits ∅
           (OrganizationRateLimiterProcessor "org_id") query_org_42
           (HTTPRequestSettings_of_referrer "api") "42" 1000
           eq_refl eq_refl Hid).
Defined.

(** The pure-referrer processor with a concurrent limit stored for the
    referrer [api]: one of the four keys is there, and the settings
    change. *)
Lemma unlimited_processor_attaches_iff_configured_witness :
  default_limit ReferrerRateLimiterProcessor = None
  ∧ _is_already_applied ReferrerRateLimiterProcessor
      (OfHTTP (HTTPRequestSettings_of_referrer "api")) = false
  ∧ get_object_id ReferrerRateLimiterProcessor query_no_conditions
      (OfHTTP (HTTPRequestSettings_of_referrer "api")) = Ok (Some "api")
  ∧ store_referrer_api !! "referrer_concurrent_limit_api" = Some 3
  ∧ process_query store_referrer_api ReferrerRateLimiterProcessor
      query_no_conditions (OfHTTP (HTTPRequestSettings_of_referrer "api"))
    ≠ Ok (OfHTTP (HTTPRequestSettings_of_referrer "api")).
Proof.
  split_and!; [reflexivity | reflexivity | reflexivity
               | vm_compute; reflexivity |].
  intros Hunchanged.
  apply (unlimited_processor_attaches_iff_configured store_referrer_api
           ReferrerRateLimiterProcessor query_no_conditions
           (HTTPRequestSettings_of_referrer "api") "api"
           eq_refl eq_refl eq_refl) in Hunchanged
    as (_ & _ & _ & Hkey).
  vm_compute in Hkey. discriminate Hkey.
Defined.

(** A base processor on the project column with [request_settings_field] set
    to [referrer]. *)
Lemma base_processor_suffixes_referrer_witness :
  get_object_ids_in_query_ast query_project_1 "project_id" = Some {[ 1 ]}
  ∧ ({[ 1 ]} : gset Z) ≠ ∅
  ∧ get_object_id
      (ObjectIDRateLimiterProcessor "project_id" "project_referrer"
         "per_second" "concurrent" (Some "referrer") (Some 1000))
      query_project_1 (OfHTTP (HTTPRequestSettings_of_referrer "api"))
    = Ok (Some "1_api").
Proof.
  assert (get_object_ids_in_query_ast query_project_1 "project_id"
          = Some {[ 1 ]}) as Hids
    by (vm_compute; reflexivity).
  assert (({[ 1 ]} : gset Z) ≠ ∅) as Hne
    by apply non_empty_singleton_L.
  split_and!; [exact Hids | exact Hne |].
  destruct (base_processor_suffixes_referrer ∅
              (ObjectIDRateLimiterProcessor "project_id" "project_referrer"
                 "per_second" "concurrent" (Some "referrer") (Some 1000))
              query_project_1 (HTTPRequestSettings_of_referrer "api")
              {[ 1 ]} eq_refl eq_refl Hids Hne)
    as (x & Hx & Hid & _).
  apply elem_of_singleton in Hx. subst x. exact Hid.
Defined.

(** The project processor on a query naming the projects 1 and 2. *)
Lemma organization_and_project_processors_attach_witness :
  get_object_ids_in_query_ast query_projects_1_2 "project_id"
  = Some {[ 1; 2 ]}
  ∧ ({[ 1; 2 ]} : gset Z) ≠ ∅
  ∧ _is_already_applied (ProjectRateLimiterProcessor "project_id")
      (OfHTTP (HTTPRequestSettings_of_referrer "api")) = false
  ∧ ∃ request_settings' x per_second concurr,
      x ∈ ({[ 1; 2 ]} : gset Z)
      ∧ process_query ∅ (ProjectRateLimiterProcessor "project_id")
          query_projects_1_2 (OfHTTP (HTTPRequestSettings_of_referrer "api"))
        = Ok request_settings'
      ∧ get_rate_limit_params request_settings'
        = [rate_limit.mkRateLimitParameters "project" (pretty x)
             (Some per_second) (Some concurr)].
Proof.
  assert (get_object_ids_in_query_ast query_projects_1_2 "project_id"
          = Some {[ 1; 2 ]}) as Hids
    by (vm_compute; reflexivity).
  assert (({[ 1; 2 ]} : gset Z) ≠ ∅) as Hne.
  { intros Hempty. assert (1 ∈ (∅ : gset Z)) as Hin
      by (rewrite <- Hempty; apply elem_of_union; left;
          by apply elem_of_singleton).
    by apply not_elem_of_empty in Hin. }
  split_and!; [exact Hids | exact Hne | reflexivity |].
  apply (organization_and_project_processors_attach ∅ "project_id"
           query_projects_1_2 (HTTPRequestSettings_of_referrer "api")
           {[ 1; 2 ]} (ProjectRateLimiterProcessor "project_id")
           (or_intror eq_refl) Hids Hne eq_refl).
Defined.

(** The organization processor on a query naming organization 42, over
    settings that hold an organization limit for the bucket 7. *)
Lemma entry_of_same_name_blocks_processor_witness :
  rate_limit.mkRateLimitParameters "organization" "7" (Some 3) None
  ∈ get_rate_limit_params (OfHTTP settings_with_organization_limit)
  ∧ process_query store_org_42 (OrganizationRateLimiterProcessor "org_id")
      query_org_42 (OfHTTP settings_with_organization_limit)
    = Ok (OfHTTP settings_with_organization_limit).
Proof.
  assert (rate_limit.mkRateLimitParameters "organization" "7" (Some 3) None
          ∈ get_rate_limit_params (OfHTTP settings_with_organization_limit))
    as Hin
    by (simpl; left).
  split; [exact Hin|].
  apply (entry_of_same_name_blocks_processor store_org_42
           (OrganizationRateLimiterProcessor "org_id") query_org_42
           (OfHTTP settings_with_organization_limit) _ Hin).
  reflexivity.
Defined.

(** The topic [events], renamed [ingest-events]: eight partitions configured
    under [events] are not seen. *)
Lemma partitions_number_reads_mapped_name_witness :
  topic_map_events !! "events" = Some "ingest-events"
  ∧ KafkaTopicSpec_partitions_number topic_map_events
      (<[ "events" := 8 ]> ∅) (mkKafkaTopicSpec (mkTopic "events"))
    = 1.
Proof.
  assert (topic_map_events
            !! Topic_value (KafkaTopicSpec_topic
                              (mkKafkaTopicSpec (mkTopic "events")))
          = Some "ingest-events") as Hmap
    by (vm_compute; reflexivity).
  split; [exact Hmap|].
  destruct (partitions_number_reads_mapped_name topic_map_events ∅
              (mkKafkaTopicSpec (mkTopic "events")) "ingest-events" 8 Hmap)
    as [_ Hcount]; [discriminate|].
  etrans; [exact Hcount|]. vm_compute. reflexivity.
Defined.

(** The join optimizer on queries over the join of [events] and [groups];
    the referenced columns of a query are its body. *)
Lemma query_events_only_aliases column other :
  column ∈ query_body query_events_only →
  alias_before_dot column = Some other → other = "e".
Proof.
  intros Hin Hm. simpl in Hin.
  repeat (apply elem_of_cons in Hin as [->|Hin]);
    try (by apply elem_of_nil in Hin);
    vm_compute in Hm; congruence.
Qed.

Lemma query_unknown_alias_aliases column other :
  column ∈ query_body query_unknown_alias →
  alias_before_dot column = Some other → other = "t".
Proof.
  intros Hin Hm. simpl in Hin.
  repeat (apply elem_of_cons in Hin as [->|Hin]);
    try (by apply elem_of_nil in Hin);
    vm_compute in Hm; congruence.
Qed.

Lemma join_optimizer_selects_referenced_table_witness :
  get_data_source query_events_only
  = JoinClause {[ "e" := "events"; "g" := "groups" ]}
  ∧ SimpleJoinOptimizer_process_query query_body alias_before_dot
      query_events_only (OfHTTP (HTTPRequestSettings_of_referrer "api"))
    = Ok {| query_data_source := SingleTable "events";
            query_body := ["e.event_id"; "count"; "e.project_id"] |}.
Proof.
  split; [reflexivity|].
  apply (join_optimizer_selects_referenced_table query_body alias_before_dot
           query_events_only (OfHTTP (HTTPRequestSettings_of_referrer "api"))
           {[ "e" := "events"; "g" := "groups" ]} "e" "events" eq_refl).
  - exists "e.event_id". split; [left|reflexivity].
  - exact query_events_only_aliases.
  - vm_compute. reflexivity.
Defined.

Lemma join_optimizer_leaves_query_witness :
  alias_before_dot "e.event_id" = Some "e"
  ∧ alias_before_dot "g.status" = Some "g"
  ∧ SimpleJoinOptimizer_process_query query_body alias_before_dot
      query_both_tables (OfHTTP (HTTPRequestSettings_of_referrer "api"))
    = Ok query_both_tables.
Proof.
  split_and!; [reflexivity | reflexivity |].
  apply (join_optimizer_leaves_query query_body alias_before_dot
           query_both_tables (OfHTTP (HTTPRequestSettings_of_referrer "api"))).
  right. right. exists "e.event_id", "g.status", "e", "g".
  split_and!; [left | right; left | reflexivity | reflexivity | discriminate].
Defined.

Lemma join_optimizer_unknown_alias_raises_witness :
  ({[ "e" := "events"; "g" := "groups" ]} : gmap string string) !! "t" = None
  ∧ SimpleJoinOptimizer_process_query query_body alias_before_dot
      query_unknown_alias (OfHTTP (HTTPRequestSettings_of_referrer "api"))
    = Raise KeyError.
Proof.
  assert (({[ "e" := "events"; "g" := "groups" ]} : gmap string string)
            !! "t" = None) as Htable
    by (vm_compute; reflexivity).
  split; [exact Htable|].
  apply (join_optimizer_unknown_alias_raises query_body alias_before_dot
           query_unknown_alias (OfHTTP (HTTPRequestSettings_of_referrer "api"))
           {[ "e" := "events"; "g" := "groups" ]} "t" eq_refl).
  - exists "t.transaction_id". split; [left|reflexivity].
  - exact query_unknown_alias_aliases.
  - exact Htable.
Defined.

Lemma join_optimizer_result_witness :
  SimpleJoinOptimizer_process_query query_body alias_before_dot
    query_events_only (OfHTTP (HTTPRequestSettings_of_referrer "api"))
  = Ok (set_data_source query_events_only "events")
  ∧ SimpleJoinOptimizer_process_query query_body alias_before_dot
      (set_data_source query_events_only "events")
      (OfHTTP (HTTPRequestSettings_of_referrer "api"))
    = Ok (set_data_source query_events_only "events").
Proof.
  assert (SimpleJoinOptimizer_process_query query_body alias_before_dot
            query_events_only (OfHTTP (HTTPRequestSettings_of_referrer "api"))
          = Ok (set_data_source query_events_only "events")) as Hrun
    by (vm_compute; reflexivity).
  split; [exact Hrun|].
  apply (join_optimizer_result query_body alias_before_dot
           query_events_only _
           (OfHTTP (HTTPRequestSettings_of_referrer "api")) Hrun).
Defined.
